(** * Smart Black Pepper Guardian: sensor acquisition and consensus inference

    A shallow embedding of [app.py]: the sensor interface [get_sensor_data]
    with its three modes, the feature vector and the three-model vote of
    [run_dashboard_cycle], and the rolling trend history.

    Numbers: a Python float is idealised as the exact rational ([Q]) it
    stands for, and arithmetic on floats as exact arithmetic; NaN and the
    infinities have no counterpart here. The libraries the script calls
    ([random], [requests], [minimalmodbus], the builtin [float] on a
    string, the clock) are an environment [Env] that every property
    quantifies over. *)

From Stdlib Require Import ZArith QArith Qround Lqa Lia Ascii String.
From stdpp Require Import base option list strings gmap.

Local Open Scope string_scope.
Local Open Scope list_scope.
Local Open Scope stdpp_scope.
Set Warnings "-register-all".

(** ** [collections.Counter] and the vote *)

Module Consensus.

Section Counter.
Context {L : Type} `{EqDecision L}.

(** A [Counter] is a dict, so it keeps its keys in insertion order; the
    association list below holds exactly the [items()] of the dict. *)
Definition counter := list (L * nat).

(** [self[elem] = self.get(elem, 0) + 1]: an existing key keeps its
    position, a new key goes to the end. *)
Fixpoint counter_incr (c : counter) (x : L) : counter :=
  match c with
  | [] => [(x, 1)]
  | (k, n) :: c' =>
      if decide (k = x) then (k, S n) :: c' else (k, n) :: counter_incr c' x
  end.

(** [Counter(iterable)] *)
Definition Counter (votes : list L) : counter :=
  fold_left counter_incr votes [].

(** [max(it, key=itemgetter(1))]: the running best is replaced only by a
    strictly larger count, so the first of the largest items wins. *)
Fixpoint max_by_count (best : L * nat) (rest : counter) : L * nat :=
  match rest with
  | [] => best
  | x :: rest' => max_by_count (if (snd best <? snd x)%nat then x else best) rest'
  end.

(** [most_common(1)], which is [heapq.nlargest(1, self.items(), key=...)]:
    the empty list for an empty counter, else the one largest item. *)
Definition most_common_1 (c : counter) : list (L * nat) :=
  match c with
  | [] => []
  | x :: rest => [max_by_count x rest]
  end.

(** [votes.count(x)], the number of votes for [x]. *)
Definition tally (x : L) (votes : list L) : nat :=
  length (filter (λ y, y = x) votes).

(** [Counter(votes).most_common(1)[0][0]]; [None] is the [IndexError] of
    [[0]] on an empty list. *)
Definition consensus_of (votes : list L) : option L :=
  match most_common_1 (Counter votes) with
  | x :: _ => Some (fst x)
  | [] => None
  end.
End Counter.

(** The loaded models: three classifiers, the scaler and the label
    encoder, each taken as the function it computes. *)
Record Resources (L : Type) := {
  rf : list Q -> Z;
  xgb : list Q -> Z;
  svm : list Q -> Z;
  scaler : list Q -> list Q;
  encoder : Z -> L
}.
Arguments rf {L}.
Arguments xgb {L}.
Arguments svm {L}.
Arguments scaler {L}.
Arguments encoder {L}.

Record Verdict (L : Type) := {
  rf_pred : L; xgb_pred : L; svm_pred : L; consensus : option L
}.
Arguments rf_pred {L}.
Arguments xgb_pred {L}.
Arguments svm_pred {L}.
Arguments consensus {L}.

(** Lines 281-292 of [run_dashboard_cycle]: predict, decode, vote. *)
Definition classify {L} `{EqDecision L}
    (resources : Resources L) (scaled_features : list Q) : Verdict L :=
  let rf_code := rf resources scaled_features in
  let xgb_code := xgb resources scaled_features in
  let svm_code := svm resources scaled_features in
  let rf_pred := encoder resources rf_code in
  let xgb_pred := encoder resources xgb_code in
  let svm_pred := encoder resources svm_code in
  let votes := [rf_pred; xgb_pred; svm_pred] in
  {| rf_pred := rf_pred; xgb_pred := xgb_pred; svm_pred := svm_pred;
     consensus := consensus_of votes |}.

End Consensus.

(** ** Python control flow: state, exceptions, [try]/[except]/[finally] *)

Module Py.

(** The exception classes that can reach the handlers of [app.py].
    [KeyboardInterrupt] stands for the [BaseException]s that are no
    [Exception]. *)
Inductive exn :=
  | ImportError | KeyError | TypeError | ValueError | IndexError
  | AttributeError | HTTPError | RequestException | SerialException
  | ModbusException | KeyboardInterrupt.

(** [isinstance(e, Exception)] *)
Definition is_Exception (e : exn) : bool :=
  match e with KeyboardInterrupt => false | _ => true end.

(** [isinstance(e, ImportError)] *)
Definition is_ImportError (e : exn) : bool :=
  match e with ImportError => true | _ => false end.

Inductive res (A : Type) :=
  | Val (a : A)
  | Exc (e : exn).
Arguments Val {A}.
Arguments Exc {A}.

(** A statement block over a mutable state [S]: it ends with a value or
    with a raised exception, and in both cases leaves a state behind. *)
Definition M (S A : Type) : Type := S -> res A * S.

Definition ret {S A} (a : A) : M S A := fun s => (Val a, s).
Definition raise {S A} (e : exn) : M S A := fun s => (Exc e, s).
Definition bind {S A B} (m : M S A) (k : A -> M S B) : M S B :=
  fun s => match m s with
           | (Val a, s') => k a s'
           | (Exc e, s') => (Exc e, s')
           end.
Definition get {S} : M S S := fun s => (Val s, s).
Definition modify {S} (f : S -> S) : M S unit := fun s => (Val tt, f s).

(** Either a value or a raise, without touching the state. *)
Definition of_res {S A} (r : res A) : M S A := fun s => (r, s).

(** [try: body / except ...: handler]. [handler e] is [None] when no
    [except] clause matches [e], which then propagates. *)
Definition try_except {S A} (body : M S A) (handler : exn -> option (M S A))
    : M S A :=
  fun s => match body s with
           | (Val a, s') => (Val a, s')
           | (Exc e, s') =>
               match handler e with
               | Some h => h s'
               | None => (Exc e, s')
               end
           end.

(** [try: body / finally: cleanup]: the cleanup runs on every way out of
    the body; an exception of the cleanup itself replaces the outcome. *)
Definition try_finally {S A} (body : M S A) (cleanup : M S unit) : M S A :=
  fun s => match body s with
           | (r, s') =>
               match cleanup s' with
               | (Val _, s'') => (r, s'')
               | (Exc e, s'') => (Exc e, s'')
               end
           end.

(** Run a block that has local variables [Lc] next to the outer state. *)
Definition with_locals {Lc S A} (init : Lc) (m : M (Lc * S) A) : M S A :=
  fun s => match m (init, s) with (r, (_, s')) => (r, s') end.

(** Use a block on the outer state inside a block with locals. *)
Definition lift {Lc S A} (m : M S A) : M (Lc * S) A :=
  fun '(l, s) => match m s with (r, s') => (r, (l, s')) end.

(** [hoare P m Q]: run from a state in [P], the block [m] ends, with a
    value or with an exception, in an outcome and a state that [Q] holds
    of. Blocks are total functions, so there is always such an end. *)
Definition hoare {S A} (P : S -> Prop) (m : M S A) (Q : res A -> S -> Prop)
    : Prop :=
  forall s, P s -> Q (fst (m s)) (snd (m s)).

End Py.

Notation "x <- m ;; k" := (Py.bind m (fun x => k))
  (at level 200, m at level 99, right associativity).
Notation "m ;;; k" := (Py.bind m (fun _ => k))
  (at level 200, right associativity).

(** ** The sensor interface, [get_sensor_data] *)

Module Sensor.
Import Py.

(** *** Values of a decoded JSON body *)

(** What [response.json()] hands back. An object is kept as its list of
    items; a lookup takes the first binding of a key. *)
Inductive json :=
  | JNull
  | JBool (b : bool)
  | JNum (q : Q)
  | JStr (s : string)
  | JArr (l : list json)
  | JObj (kvs : list (string * json)).

Fixpoint assoc (k : string) (kvs : list (string * json)) : option json :=
  match kvs with
  | [] => None
  | (k', v) :: kvs' => if String.eqb k' k then Some v else assoc k kvs'
  end.

(** Truth value of an object, as [if x:] and [x or y] test it. *)
Definition truthy (v : json) : bool :=
  match v with
  | JNull => false
  | JBool b => b
  | JNum q => negb (Qeq_bool q 0)
  | JStr s => negb (String.eqb s "")
  | JArr l => match l with [] => false | _ => true end
  | JObj kvs => match kvs with [] => false | _ => true end
  end.

(** [x or y] *)
Definition py_or (x y : json) : json := if truthy x then x else y.

(** [v[key]] with a [str] key *)
Definition getitem_str (v : json) (key : string) : res json :=
  match v with
  | JObj kvs => match assoc key kvs with Some x => Val x | None => Exc KeyError end
  | _ => Exc TypeError
  end.

(** [v[-1]] *)
Definition getitem_last (v : json) : res json :=
  match v with
  | JArr l => match last l with Some x => Val x | None => Exc IndexError end
  | JStr s =>
      match String.length s with
      | O => Exc IndexError
      | S n => Val (JStr (String.substring n 1 s))
      end
  | JObj _ => Exc KeyError
  | _ => Exc TypeError
  end.

(** [v.get(key)]: [None] for a missing key; only a dict has [.get]. *)
Definition dict_get (v : json) (key : string) : res json :=
  match v with
  | JObj kvs => Val (default JNull (assoc key kvs))
  | _ => Exc AttributeError
  end.

(** [float(v)], given the builtin's reading of a [str]. *)
Definition py_float (float_of_str : string -> option Q) (v : json) : res Q :=
  match v with
  | JNum q => Val q
  | JBool b => Val (if b then 1 else 0)%Q
  | JStr s => match float_of_str s with Some q => Val q | None => Exc ValueError end
  | JNull | JArr _ | JObj _ => Exc TypeError
  end.

(** *** Rounding and random numbers *)

(** Round to the nearest integer, ties to even. *)
Definition round_half_even (q : Q) : Z :=
  let f := Qfloor q in
  match (q - inject_Z f ?= 1 # 2)%Q with
  | Lt => f
  | Gt => (f + 1)%Z
  | Eq => if Z.even f then f else (f + 1)%Z
  end.

Definition pow10 (ndigits : nat) : Q := inject_Z (10 ^ Z.of_nat ndigits).

(** [round(q, ndigits)] *)
Definition py_round (q : Q) (ndigits : nat) : Q :=
  (inject_Z (round_half_even (q * pow10 ndigits)) / pow10 ndigits)%Q.

(** [q] is written with at most [ndigits] decimals. *)
Definition has_decimals (ndigits : nat) (q : Q) : Prop :=
  ∃ z : Z, q = (inject_Z z / pow10 ndigits)%Q.

(** *** The world outside the function *)

Record Response := { status_code : Z; body : option json }.

Record Instrument := { port : string; address : Z }.

(** The values that the function assigns to attributes of the instrument. *)
Inductive attr_value :=
  | AInt (z : Z) | AFloat (q : Q) | AStr (s : string) | ABool (b : bool).

(** What the libraries and the hardware answer. *)
Record Env := {
  (** the k-th call of [random.random()] *)
  random_random : nat -> Q;
  (** [requests.get(url, timeout=5)] *)
  requests_get : string -> res Response;
  (** the builtin [float] on a [str]; [None] is its [ValueError] *)
  float_of_str : string -> option Q;
  (** [import minimalmodbus] *)
  import_minimalmodbus : res unit;
  (** [minimalmodbus.Instrument(port, slave)], which opens the port;
      [Some e] when it raises *)
  Instrument_init : string -> Z -> option exn;
  (** an assignment to an attribute of the instrument or of its port *)
  setattr : string -> attr_value -> option exn;
  (** [instrument.read_register(address, decimals, functioncode=fc)] *)
  read_register : Z -> Z -> Z -> res Q;
  (** [time.strftime("%H:%M:%S")] *)
  strftime : string
}.

Inductive event :=
  | Sleep (secs : Q)
  | HttpGet (url : string)
  | SidebarMarkdown (text : string)
  | SidebarCaption (created_at : json)
  | SidebarJson (v : json)
  | StWarning (text : string)
  | StError (text : string) (e : exn)
  | Import (name : string)
  | OpenInstrument (i : Instrument)
  | SetAttr (name : string)
  | ReadRegister (addr decimals fc : Z)
  | SerialClose
  | Metric (label : string) (value : Q)
  | Info (model label : string)
  | Success (label : string)
  | Error (label : string)
  | PlotlyChart (time : list string) (N P pH : list Q).

Record World := {
  rng_calls : nat;          (** calls of [random.random()] so far *)
  serial_is_open : bool;    (** the port of the instrument is held open *)
  trace : list event        (** what happened, oldest first *)
}.

Definition log (e : event) : M World unit :=
  modify (fun w => {| rng_calls := rng_calls w;
                      serial_is_open := serial_is_open w;
                      trace := trace w ++ [e] |}).

Definition set_serial (b : bool) : M World unit :=
  modify (fun w => {| rng_calls := rng_calls w;
                      serial_is_open := b;
                      trace := trace w |}).

(** [random.random()] *)
Definition random (env : Env) : M World Q :=
  fun w => (Val (random_random env (rng_calls w)),
            {| rng_calls := S (rng_calls w);
               serial_is_open := serial_is_open w;
               trace := trace w |}).

(** [random.uniform(a, b)], which is [a + (b - a) * self.random()] *)
Definition uniform (env : Env) (a b : Q) : M World Q :=
  r <- random env ;; ret (a + (b - a) * r)%Q.

(** [time.sleep(secs)] *)
Definition sleep (secs : Q) : M World unit := log (Sleep secs).

(** [response.raise_for_status()] *)
Definition raise_for_status (r : Response) : M World unit :=
  if ((400 <=? status_code r) && (status_code r <? 600))%Z
  then raise HTTPError else ret tt.

(** [response.json()] *)
Definition response_json (r : Response) : M World json :=
  match body r with Some v => ret v | None => raise ValueError end.

(** *** The three modes

    The texts shown to the user are given without their leading emoji. *)

(** The seven canonical fields, in the order of the [data] dict. *)
Definition field_names : list string :=
  ["Temperature"; "Moisture"; "Nitrogen"; "Phosphorus"; "Potassium";
   "pH"; "Humidity"].

(** A Reading is a dict that has exactly the seven fields. *)
Definition Reading (d : gmap string Q) : Prop :=
  dom d = list_to_set field_names.

(** The [data] dict the function starts from. *)
Definition data0 : gmap string Q :=
  <["Humidity" := 0%Q]> (<["pH" := 0%Q]> (<["Potassium" := 0%Q]>
  (<["Phosphorus" := 0%Q]> (<["Nitrogen" := 0%Q]> (<["Moisture" := 0%Q]>
  (<["Temperature" := 0%Q]> ∅)))))).

(** Lines 62-72. *)
Definition simulation_mode (env : Env) (data : gmap string Q)
    : M World (option (gmap string Q)) :=
  x <- uniform env 22 35 ;;
  let data := <["Temperature" := py_round x 1]> data in
  x <- uniform env 40 80 ;;
  let data := <["Moisture" := py_round x 1]> data in
  x <- uniform env 100 250 ;;
  let data := <["Nitrogen" := py_round x 0]> data in
  x <- uniform env 10 60 ;;
  let data := <["Phosphorus" := py_round x 0]> data in
  x <- uniform env 150 300 ;;
  let data := <["Potassium" := py_round x 0]> data in
  x <- uniform env (55 # 10) (75 # 10) ;;
  let data := <["pH" := py_round x 2]> data in
  x <- uniform env 60 90 ;;
  let data := <["Humidity" := py_round x 1]> data in
  sleep (1 # 2) ;;;
  ret (Some data).

Definition feed_url (ts_channel ts_key : string) : string :=
  "https://api.thingspeak.com/channels/" +:+ ts_channel +:+
  "/feeds.json?api_key=" +:+ ts_key +:+ "&results=1".

(** [if mapping:] for a mapping that is [None] or a dict *)
Definition mapping_truthy (mapping : option (gmap string string)) : bool :=
  match mapping with
  | Some m => negb (bool_decide (m = ∅))
  | None => false
  end.

(** [mapping[name]] *)
Definition mapping_getitem (mapping : option (gmap string string))
    (name : string) : res string :=
  match mapping with
  | Some m => match m !! name with Some f => Val f | None => Exc KeyError end
  | None => Exc TypeError
  end.

(** [float(latest.get(key) or 0)] *)
Definition float_get_or_0 (env : Env) (latest : json) (key : string)
    : M World Q :=
  v <- of_res (dict_get latest key) ;;
  of_res (py_float (float_of_str env) (py_or v (JNum 0))).

(** [float(latest.get(mapping[name]) or 0)] *)
Definition mapped_field (env : Env) (latest : json)
    (mapping : option (gmap string string)) (name : string) : M World Q :=
  key <- of_res (mapping_getitem mapping name) ;;
  float_get_or_0 env latest key.

(** Lines 91-102: the fields of the latest sample, by the mapping of the
    user or, without one, the fallback that reads the temperature only. *)
Definition apply_mapping (env : Env) (latest : json)
    (mapping : option (gmap string string)) (data : gmap string Q)
    : M World (gmap string Q) :=
  if mapping_truthy mapping then
    x <- mapped_field env latest mapping "Temperature" ;;
    let data := <["Temperature" := x]> data in
    x <- mapped_field env latest mapping "Moisture" ;;
    let data := <["Moisture" := x]> data in
    x <- mapped_field env latest mapping "Nitrogen" ;;
    let data := <["Nitrogen" := x]> data in
    x <- mapped_field env latest mapping "Phosphorus" ;;
    let data := <["Phosphorus" := x]> data in
    x <- mapped_field env latest mapping "Potassium" ;;
    let data := <["Potassium" := x]> data in
    x <- mapped_field env latest mapping "pH" ;;
    let data := <["pH" := x]> data in
    x <- mapped_field env latest mapping "Humidity" ;;
    let data := <["Humidity" := x]> data in
    ret data
  else
    x <- float_get_or_0 env latest "field1" ;;
    let data := <["Temperature" := x]> data in
    ret data.

(** Lines 76-107, the body of the [try]. *)
Definition thingspeak_try (env : Env) (ts_channel ts_key : string)
    (mapping : option (gmap string string)) (data : gmap string Q)
    : M World (option (gmap string Q)) :=
  let url := feed_url ts_channel ts_key in
  log (HttpGet url) ;;;
  response <- of_res (requests_get env url) ;;
  raise_for_status response ;;;
  feed <- response_json response ;;
  feeds <- of_res (getitem_str feed "feeds") ;;
  if truthy feeds then
    feeds <- of_res (getitem_str feed "feeds") ;;
    latest <- of_res (getitem_last feeds) ;;
    log (SidebarMarkdown "---") ;;;
    log (SidebarMarkdown "### Raw Data Payload") ;;;
    created_at <- of_res (getitem_str latest "created_at") ;;
    log (SidebarCaption created_at) ;;;
    log (SidebarJson latest) ;;;
    data <- apply_mapping env latest mapping data ;;
    ret (Some data)
  else
    log (StWarning "ThingSpeak connected, but channel is empty.") ;;;
    ret None.

(** Lines 109-111: [except Exception as e]. *)
Definition thingspeak_except (e : exn)
    : option (M World (option (gmap string Q))) :=
  if is_Exception e
  then Some (log (StError "ThingSpeak Error" e) ;;; ret None)
  else None.

(** Lines 74-111. *)
Definition thingspeak_cloud (env : Env) (ts_channel ts_key : string)
    (mapping : option (gmap string string)) (data : gmap string Q)
    : M World (option (gmap string Q)) :=
  try_except (thingspeak_try env ts_channel ts_key mapping data)
             thingspeak_except.

(** *** Live Sensor Mode

    The local variable [instrument] is read by the [finally] clause, so it
    is state of its own next to the world. [instrument.serial] is the port
    object that the constructor made: it is there, and true, whenever the
    instrument is. *)

Definition Frame : Type := option Instrument * World.

(** [instrument = ...] *)
Definition assign_instrument (i : Instrument) : M Frame unit :=
  modify (fun fr : Frame => (Some i, snd fr)).

(** [minimalmodbus.Instrument(com_port, slave_id)] *)
Definition new_instrument (env : Env) (com_port : string) (slave_id : Z)
    : M World Instrument :=
  match Instrument_init env com_port slave_id with
  | Some e => raise e
  | None =>
      let i := {| port := com_port; address := slave_id |} in
      log (OpenInstrument i) ;;;
      set_serial true ;;;
      ret i
  end.

(** [instrument.<name> = v] *)
Definition assign_attr (env : Env) (name : string) (v : attr_value)
    : M World unit :=
  log (SetAttr name) ;;;
  match setattr env name v with
  | Some e => raise e
  | None => ret tt
  end.

(** [instrument.read_register(addr, decimals, functioncode=fc)] *)
Definition do_read_register (env : Env) (addr decimals fc : Z) : M World Q :=
  log (ReadRegister addr decimals fc) ;;;
  of_res (read_register env addr decimals fc).

(** Lines 116-156, the body of the [try]. *)
Definition live_try (env : Env) (com_port : string) (baudrate slave_id : Z)
    (timeout : Q) (function_code : Z) (data : gmap string Q)
    : M Frame (option (gmap string Q)) :=
  lift (log (Import "minimalmodbus")) ;;;
  lift (of_res (import_minimalmodbus env)) ;;;
  instrument <- lift (new_instrument env com_port slave_id) ;;
  assign_instrument instrument ;;;
  lift (assign_attr env "serial.baudrate" (AInt baudrate)) ;;;
  lift (assign_attr env "serial.timeout" (AFloat timeout)) ;;;
  lift (assign_attr env "serial.bytesize" (AInt 8)) ;;;
  lift (assign_attr env "serial.parity" (AStr "N")) ;;;
  lift (assign_attr env "serial.stopbits" (AInt 1)) ;;;
  lift (assign_attr env "mode" (AStr "rtu")) ;;;
  lift (assign_attr env "clear_buffers_before_each_transaction" (ABool true)) ;;;
  x <- lift (do_read_register env 0 1 function_code) ;;
  let data := <["Temperature" := x]> data in
  x <- lift (do_read_register env 1 1 function_code) ;;
  let data := <["Moisture" := x]> data in
  x <- lift (do_read_register env 2 0 function_code) ;;
  let data := <["Nitrogen" := x]> data in
  x <- lift (do_read_register env 3 0 function_code) ;;
  let data := <["Phosphorus" := x]> data in
  x <- lift (do_read_register env 4 0 function_code) ;;
  let data := <["Potassium" := x]> data in
  x <- lift (do_read_register env 5 1 function_code) ;;
  let data := <["pH" := x]> data in
  x <- lift (do_read_register env 6 1 function_code) ;;
  let data := <["Humidity" := x]> data in
  ret (Some data).

(** Lines 158-163: [except ImportError], then [except Exception as e]. *)
Definition live_except (e : exn)
    : option (M Frame (option (gmap string Q))) :=
  if is_ImportError e then
    Some (lift (log (StError
            "'minimalmodbus' library not found. Please pip install it." e)) ;;;
          ret None)
  else if is_Exception e then
    Some (lift (log (StError "Sensor Connection Error" e)) ;;; ret None)
  else None.

(** Lines 164-166: [finally]. *)
Definition live_finally : M Frame unit :=
  fr <- get ;;
  match fst fr with
  | Some _ => lift (log SerialClose ;;; set_serial false)
  | None => ret tt
  end.

(** Lines 113-166. *)
Definition live_sensor_mode (env : Env) (com_port : string)
    (baudrate slave_id : Z) (timeout : Q) (function_code : Z)
    (data : gmap string Q) : M World (option (gmap string Q)) :=
  with_locals None
    (try_finally
       (try_except
          (live_try env com_port baudrate slave_id timeout function_code data)
          live_except)
       live_finally).

(** What holds of the frame during the [try], seen from the world [w0]
    the function was entered in. The events since then are the [evs] with
    [trace w = trace w0 ++ evs]. *)

(** No instrument was made: the variable is [None], no port was opened
    or closed, the port is as it was. *)
Definition no_instrument (w0 : World) (fr : Frame) : Prop :=
  fr.1 = None ∧
  ∃ evs, trace fr.2 = trace w0 ++ evs ∧
         (∀ i, OpenInstrument i ∉ evs) ∧ (SerialClose ∉ evs) ∧
         serial_is_open fr.2 = serial_is_open w0.

(** The constructor has returned. *)
Definition port_opened (w0 : World) (w : World) : Prop :=
  ∃ evs, trace w = trace w0 ++ evs ∧ ∃ i, OpenInstrument i ∈ evs.

(** The instrument was made and the variable holds it. *)
Definition has_instrument (w0 : World) (fr : Frame) : Prop :=
  is_Some fr.1 ∧ port_opened w0 fr.2.

(** On return: either no instrument was made and the port is untouched,
    or the last thing that happened is the close of its port. *)
Definition released (w0 : World) (w : World) : Prop :=
  ∃ evs, trace w = trace w0 ++ evs ∧
    (((∀ i, OpenInstrument i ∉ evs) ∧ (SerialClose ∉ evs) ∧
      serial_is_open w = serial_is_open w0) ∨
     ((∃ i, OpenInstrument i ∈ evs) ∧ last evs = Some SerialClose ∧
      serial_is_open w = false)).

(** A block on the world that only adds to the trace. *)
Definition appends_only {A} (m : M World A) : Prop :=
  ∀ w, ∃ evs, trace (m w).2 = trace w ++ evs.

(** A block on the world that adds to the trace, and neither makes an
    instrument nor closes a port. *)
Definition leaves_port {A} (m : M World A) : Prop :=
  ∀ w, ∃ evs, trace (m w).2 = trace w ++ evs ∧
              (∀ i, OpenInstrument i ∉ evs) ∧ (SerialClose ∉ evs) ∧
              serial_is_open (m w).2 = serial_is_open w.

(** The decimals that lines 148-154 ask for at each register address:
    none for the three nutrients at 2, 3 and 4, one for the others. *)
Definition decimals_asked (addr : Z) : Z :=
  if ((2 <=? addr) && (addr <=? 4))%Z then 0%Z else 1%Z.

(** *** [get_sensor_data]

    The result is the dict of sensor values, or Python's [None]. A mode
    that is none of the three runs off the end of the function, which
    returns [None]. *)
Definition get_sensor_data (env : Env) (mode com_port : string)
    (baudrate slave_id : Z) (timeout : Q) (function_code : Z)
    (ts_channel ts_key : string) (mapping : option (gmap string string))
    : M World (option (gmap string Q)) :=
  let data := data0 in
  if String.eqb mode "Simulation Mode" then
    simulation_mode env data
  else if String.eqb mode "ThingSpeak Cloud" then
    thingspeak_cloud env ts_channel ts_key mapping data
  else if String.eqb mode "Live Sensor Mode" then
    live_sensor_mode env com_port baudrate slave_id timeout function_code data
  else
    ret None.

End Sensor.

(** ** One update of the dashboard, [run_dashboard_cycle] *)

Module Dashboard.
Import Py Sensor Consensus.

(** [st.session_state.history], the dict of the four lists. *)
Record History := {
  hN : list Q; hP : list Q; hpH : list Q; htime : list string
}.

(** Line 229. *)
Definition history0 : History :=
  {| hN := []; hP := []; hpH := []; htime := [] |}.

(** Each of the four lists has [n] entries. *)
Definition has_length (n : nat) (h : History) : Prop :=
  length (hN h) = n ∧ length (hP h) = n ∧ length (hpH h) = n ∧
  length (htime h) = n.

(** The values the sidebar sets, lines 171-218. *)
Record Config := {
  mode : string; com_port : string; baudrate : Z; slave_id : Z;
  timeout : Q; function_code : Z; ts_channel : string; ts_key : string;
  ts_mapping : gmap string string
}.

(** The state the cycle works on: the session's history and the world. *)
Definition State : Type := History * World.

(** [sensor_vals[key]] *)
Definition getitem {S} (sensor_vals : gmap string Q) (key : string) : M S Q :=
  match sensor_vals !! key with
  | Some v => ret v
  | None => raise KeyError
  end.

(** Lines 268-275: the row handed to the scaler. *)
Definition input_data {S} (sensor_vals : gmap string Q) : M S (list Q) :=
  x1 <- getitem sensor_vals "Temperature" ;;
  x2 <- getitem sensor_vals "Moisture" ;;
  x3 <- getitem sensor_vals "Nitrogen" ;;
  x4 <- getitem sensor_vals "Phosphorus" ;;
  x5 <- getitem sensor_vals "Potassium" ;;
  x6 <- getitem sensor_vals "pH" ;;
  ret [x1; x2; x3; x4; x5; x6].

(** Lines 252-263: the seven metrics. *)
Definition show_metrics (sensor_vals : gmap string Q) : M State unit :=
  x1 <- getitem sensor_vals "Temperature" ;;
  x2 <- getitem sensor_vals "Moisture" ;;
  x3 <- getitem sensor_vals "Nitrogen" ;;
  x4 <- getitem sensor_vals "Phosphorus" ;;
  x5 <- getitem sensor_vals "Potassium" ;;
  x6 <- getitem sensor_vals "pH" ;;
  x7 <- getitem sensor_vals "Humidity" ;;
  lift (log (Metric "Temperature" x1)) ;;;
  lift (log (Metric "Moisture" x2)) ;;;
  lift (log (Metric "Nitrogen" x3)) ;;;
  lift (log (Metric "Phosphorus" x4)) ;;;
  lift (log (Metric "Potassium" x5)) ;;;
  lift (log (Metric "pH" x6)) ;;;
  lift (log (Metric "Humidity" x7)).

(** [history[key].append(v)] *)
Definition append_N (v : Q) : M State unit :=
  modify (fun '(h, w) =>
    ({| hN := hN h ++ [v]; hP := hP h; hpH := hpH h; htime := htime h |}, w)).
Definition append_P (v : Q) : M State unit :=
  modify (fun '(h, w) =>
    ({| hN := hN h; hP := hP h ++ [v]; hpH := hpH h; htime := htime h |}, w)).
Definition append_pH (v : Q) : M State unit :=
  modify (fun '(h, w) =>
    ({| hN := hN h; hP := hP h; hpH := hpH h ++ [v]; htime := htime h |}, w)).
Definition append_time (v : string) : M State unit :=
  modify (fun '(h, w) =>
    ({| hN := hN h; hP := hP h; hpH := hpH h; htime := htime h ++ [v] |}, w)).

(** [history[key].pop(0)]: an [IndexError] on an empty list. *)
Definition pop_N : M State unit :=
  fun '(h, w) =>
    match hN h with
    | [] => (Exc IndexError, (h, w))
    | _ :: l =>
        (Val tt, ({| hN := l; hP := hP h; hpH := hpH h; htime := htime h |}, w))
    end.
Definition pop_P : M State unit :=
  fun '(h, w) =>
    match hP h with
    | [] => (Exc IndexError, (h, w))
    | _ :: l =>
        (Val tt, ({| hN := hN h; hP := l; hpH := hpH h; htime := htime h |}, w))
    end.
Definition pop_pH : M State unit :=
  fun '(h, w) =>
    match hpH h with
    | [] => (Exc IndexError, (h, w))
    | _ :: l =>
        (Val tt, ({| hN := hN h; hP := hP h; hpH := l; htime := htime h |}, w))
    end.
Definition pop_time : M State unit :=
  fun '(h, w) =>
    match htime h with
    | [] => (Exc IndexError, (h, w))
    | _ :: l =>
        (Val tt, ({| hN := hN h; hP := hP h; hpH := hpH h; htime := l |}, w))
    end.

(** Lines 312-320: append the new point, keep the last 30. The loop over
    the keys of the dict visits N, P, pH, time. *)
Definition update_history (env : Env) (sensor_vals : gmap string Q)
    : M State unit :=
  x <- getitem sensor_vals "Nitrogen" ;;
  append_N x ;;;
  x <- getitem sensor_vals "Phosphorus" ;;
  append_P x ;;;
  x <- getitem sensor_vals "pH" ;;
  append_pH x ;;;
  append_time (strftime env) ;;;
  st <- get ;;
  if (30 <? length (htime (fst st)))%nat then
    pop_N ;;; pop_P ;;; pop_pH ;;; pop_time
  else ret tt.

(** Lines 323-340. *)
Definition plot : M State unit :=
  st <- get ;;
  let h := fst st in
  lift (log (PlotlyChart (htime h) (hN h) (hP h) (hpH h))).

(** Lines 298-308. *)
Definition show_verdict (v : Verdict string) (consensus : string)
    : M State unit :=
  lift (log (Info "Random Forest" (rf_pred v))) ;;;
  lift (log (Info "XGBoost" (xgb_pred v))) ;;;
  lift (log (Info "SVM" (svm_pred v))) ;;;
  if String.eqb consensus "Healthy"
  then lift (log (Success consensus))
  else lift (log (Error consensus)).

(** [if sensor_vals and resources:] for a dict or [None] on the left. *)
Definition sensor_vals_truthy (sensor_vals : option (gmap string Q)) : bool :=
  match sensor_vals with
  | Some d => negb (bool_decide (d = ∅))
  | None => false
  end.

(** Lines 245-340. [resources] is [None] when the models did not load. *)
Definition run_dashboard_cycle (env : Env)
    (resources : option (Resources string)) (cfg : Config) : M State unit :=
  sensor_vals <- lift (get_sensor_data env (mode cfg) (com_port cfg)
                         (baudrate cfg) (slave_id cfg) (timeout cfg)
                         (function_code cfg) (ts_channel cfg) (ts_key cfg)
                         (Some (ts_mapping cfg))) ;;
  match sensor_vals, resources with
  | Some vals, Some resources =>
      if sensor_vals_truthy sensor_vals then
        show_metrics vals ;;;
        input <- input_data vals ;;
        let scaled_features := scaler resources input in
        let v := classify resources scaled_features in
        match consensus v with
        | None => raise IndexError
        | Some c =>
            show_verdict v c ;;;
            update_history env vals ;;;
            plot
        end
      else ret tt
  | _, _ => ret tt
  end.

(** The reruns of the script: each one runs a cycle on the state the last
    one left, whether it ended in an exception or not. *)
Definition Cycle : Type := Env * option (Resources string) * Config.

Definition run_cycle (st : State) (c : Cycle) : State :=
  let '(env, resources, cfg) := c in
  snd (run_dashboard_cycle env resources cfg st).

Definition run_cycles (cs : list Cycle) (st : State) : State :=
  fold_left run_cycle cs st.

End Dashboard.

(** ** The models on disk, [load_resources] *)

Module Loader.
Import Py.

(** What [joblib.load] raises: the [FileNotFoundError] that the first
    handler is for, or an exception of another class. *)
Inductive raised :=
  | FileNotFoundError
  | Other (e : exn).

Section Loader.
(** The objects that the files unpickle to. *)
Context {Obj : Type}.

Record Env := {
  (** [os.sep] *)
  os_sep : string;
  (** [joblib.load(path)] *)
  joblib_load : string -> Obj + raised
}.

Inductive event :=
  | Load (path : string)
  | StError (text : string) (r : raised).

(** [os.path.join(a, b)] for the two relative names of the script. *)
Definition os_path_join (env : Env) (a b : string) : string :=
  a +:+ os_sep env +:+ b.

(** Lines 19-24. *)
Definition MODEL_DIR : string := "model_results".
Definition RF_PATH (env : Env) : string :=
  os_path_join env MODEL_DIR "Random Forest_model.pkl".
Definition XGB_PATH (env : Env) : string :=
  os_path_join env MODEL_DIR "XGBoost_model.pkl".
Definition SVM_PATH (env : Env) : string :=
  os_path_join env MODEL_DIR "SVM_model.pkl".
Definition SCALER_PATH (env : Env) : string :=
  os_path_join env MODEL_DIR "scaler.pkl".
Definition ENCODER_PATH (env : Env) : string :=
  os_path_join env MODEL_DIR "label_encoder.pkl".

(** The five files in the order of the dict of lines 31-37. *)
Definition artifact_paths (env : Env) : list string :=
  [RF_PATH env; XGB_PATH env; SVM_PATH env; SCALER_PATH env;
   ENCODER_PATH env].

(** A block of the [try]: it ends with a value or with what was raised,
    and leaves the list of what happened. *)
Definition L (A : Type) : Type := list event -> (A + raised) * list event.

Definition lret {A} (a : A) : L A := fun tr => (inl a, tr).
Definition lbind {A B} (m : L A) (k : A -> L B) : L B :=
  fun tr => match m tr with
            | (inl a, tr') => k a tr'
            | (inr r, tr') => (inr r, tr')
            end.

(** [joblib.load(path)] *)
Definition load (env : Env) (path : string) : L Obj :=
  fun tr => (joblib_load env path, tr ++ [Load path]).

(** Lines 31-38: the dict is built entry by entry. *)
Definition load_resources_try (env : Env) : L (gmap string Obj) :=
  lbind (load env (RF_PATH env)) (fun rf =>
  lbind (load env (XGB_PATH env)) (fun xgb =>
  lbind (load env (SVM_PATH env)) (fun svm =>
  lbind (load env (SCALER_PATH env)) (fun scaler =>
  lbind (load env (ENCODER_PATH env)) (fun encoder =>
  lret (<["encoder" := encoder]> (<["scaler" := scaler]>
       (<["svm" := svm]> (<["xgb" := xgb]> (<["rf" := rf]> ∅)))))))))).

(** Lines 28-44. The result is the dict, or [None] after an error was
    shown; what is no [Exception] is not caught. The texts are given
    without the leading emoji and without the text of the exception. *)
Definition load_resources (env : Env)
    : list event -> res (option (gmap string Obj)) * list event :=
  fun tr =>
    match load_resources_try env tr with
    | (inl resources, tr') => (Val (Some resources), tr')
    | (inr FileNotFoundError, tr') =>
        (Val None,
         tr' ++ [StError
                   "Error loading models. Please ensure 'model_results_smote/' directory exists."
                   FileNotFoundError])
    | (inr (Other e), tr') =>
        if is_Exception e
        then (Val None,
              tr' ++ [StError "Unexpected error loading models" (Other e)])
        else (Exc e, tr')
    end.
End Loader.

Arguments Env : clear implicits.
Arguments L : clear implicits.
Arguments event : clear implicits.

End Loader.

(** ** The scan for the sensor, [scan_sensor.py] *)

Module Scanner.
Import Py.

(** The lines and parts of lines that the script prints, one for each
    call of [print]. *)
Inductive line :=
  | Scanning (port : string)
  | EnsurePowered
  | Testing (baud slave_id : Z)
  | Success (val : Q)
  | Rule
  | FoundIt
  | Baudrate (baud : Z)
  | SlaveAddress (slave_id : Z)
  | RuleEnd
  | NoReply
  | NotFound
  | Troubleshooting
  | SwapWires
  | CheckPower
  | CheckGround.

Record Env := {
  (** [minimalmodbus.Instrument(port, slave_id)]; [Some e] when it raises *)
  Instrument_init : string -> Z -> option exn;
  (** an assignment to an attribute of the instrument or of its port *)
  setattr : string -> Sensor.attr_value -> option exn;
  (** [instrument.read_register(0, 1)] of an instrument at this baud
      rate and slave address *)
  read_register : Z -> Z -> res Q
}.

(** Lines 6-10. *)
Definition PORT_NAME : string := "COM7".
Definition BAUD_RATES : list Z := [9600; 4800; 19200]%Z.
Definition SLAVE_IDS : list Z := [1; 2; 3]%Z.

Definition print (l : line) : M (list line) unit :=
  modify (fun out => out ++ [l]).

Definition assign_attr (env : Env) (name : string) (v : Sensor.attr_value)
    : M (list line) unit :=
  match setattr env name v with
  | Some e => raise e
  | None => ret tt
  end.

(** Lines 22-29: the instrument for one combination and the one read. *)
Definition probe (env : Env) (baud slave_id : Z) : M (list line) Q :=
  match Instrument_init env PORT_NAME slave_id with
  | Some e => raise e
  | None =>
      assign_attr env "serial.baudrate" (Sensor.AInt baud) ;;;
      assign_attr env "serial.timeout" (Sensor.AFloat (1 # 2)) ;;;
      assign_attr env "close_port_after_each_call" (Sensor.ABool true) ;;;
      of_res (read_register env baud slave_id)
  end.

(** Lines 19-41, one turn of the inner loop. The result is [found]:
    [true] is the [break]. *)
Definition test_combination (env : Env) (baud slave_id : Z)
    : M (list line) bool :=
  print (Testing baud slave_id) ;;;
  try_except
    (val <- probe env baud slave_id ;;
     print (Success val) ;;;
     print Rule ;;;
     print FoundIt ;;;
     print (Baudrate baud) ;;;
     print (SlaveAddress slave_id) ;;;
     print RuleEnd ;;;
     ret true)
    (fun e => if is_Exception e then Some (print NoReply ;;; ret false)
              else None).

(** Lines 18-41: [for slave_id in SLAVE_IDS]. *)
Fixpoint scan_slave_ids (env : Env) (baud : Z) (slave_ids : list Z)
    : M (list line) bool :=
  match slave_ids with
  | [] => ret false
  | slave_id :: rest =>
      found <- test_combination env baud slave_id ;;
      if found then ret true else scan_slave_ids env baud rest
  end.

(** Lines 17-44: [for baud in BAUD_RATES], left when [found]. *)
Fixpoint scan_baud_rates (env : Env) (baud_rates slave_ids : list Z)
    : M (list line) bool :=
  match baud_rates with
  | [] => ret false
  | baud :: rest =>
      found <- scan_slave_ids env baud slave_ids ;;
      if found then ret true else scan_baud_rates env rest slave_ids
  end.

(** The script. *)
Definition scan_sensor (env : Env) : M (list line) unit :=
  print (Scanning PORT_NAME) ;;;
  print EnsurePowered ;;;
  found <- scan_baud_rates env BAUD_RATES SLAVE_IDS ;;
  if negb found then
    print NotFound ;;;
    print Troubleshooting ;;;
    print SwapWires ;;;
    print CheckPower ;;;
    print CheckGround
  else ret tt.

(** What is printed for combinations that all stay silent. *)
Definition silent (combinations : list (Z * Z)) : list line :=
  combinations ≫= λ '(baud, slave_id), [Testing baud slave_id; NoReply].

(** What is printed for the combination that answers. *)
Definition answer (baud slave_id : Z) (val : Q) : list line :=
  [Testing baud slave_id; Success val; Rule; FoundIt; Baudrate baud;
   SlaveAddress slave_id; RuleEnd].

(** The combinations in the order the two loops visit them. *)
Definition combinations (baud_rates slave_ids : list Z) : list (Z * Z) :=
  baud_rates ≫= λ baud, pair baud <$> slave_ids.

(** The combination answers with the value [val]. *)
Definition replies (env : Env) (baud slave_id : Z) (val : Q) : Prop :=
  ∀ out, probe env baud slave_id out = (Val val, out).

(** The combination answers nothing: the probe raises an exception that
    [except Exception] catches. *)
Definition no_reply (env : Env) (baud slave_id : Z) : Prop :=
  ∀ out, ∃ e, probe env baud slave_id out = (Exc e, out) ∧
              is_Exception e = true.

End Scanner.

(** ** Concrete inputs *)

Module Examples.
Import Py Sensor Consensus Dashboard.

(** Three models that vote Healthy, Healthy, Deficient on every input. *)
Definition two_healthy : Resources string :=
  {| rf := λ _, 0%Z; xgb := λ _, 0%Z; svm := λ _, 1%Z;
     scaler := λ row, row;
     encoder := λ code, if (code =? 0)%Z then "Healthy" else "Deficient" |}.

(** Three models that each vote for a label of their own. *)
Definition three_way : Resources string :=
  {| rf := λ _, 2%Z; xgb := λ _, 0%Z; svm := λ _, 1%Z;
     scaler := λ row, row;
     encoder := λ code, if (code =? 0)%Z then "Healthy"
                        else if (code =? 1)%Z then "Deficient"
                        else "Excess" |}.

(** A world in which nothing has happened yet. *)
Definition fresh : World :=
  {| rng_calls := 0; serial_is_open := false; trace := [] |}.

(** The plain decimal literals, digits with at most one point among them:
    a part of what [float] reads, enough for the examples. *)
Definition digit_of (a : Ascii.ascii) : option Z :=
  let n := Z.of_nat (Ascii.nat_of_ascii a) in
  if ((48 <=? n) && (n <=? 57))%Z then Some (n - 48)%Z else None.

Fixpoint decimal_digits (s : string) (num : Z) (decimals : option nat)
    : option Q :=
  match s with
  | EmptyString => Some (inject_Z num / pow10 (default 0%nat decimals))%Q
  | String a s' =>
      if Ascii.eqb a "."%char then
        match decimals, s' with
        | None, String _ _ => decimal_digits s' num (Some 0%nat)
        | _, _ => None
        end
      else
        match digit_of a with
        | Some d => decimal_digits s' (10 * num + d) (S <$> decimals)
        | None => None
        end
  end.

Definition decimal_literal (s : string) : option Q :=
  match s with
  | EmptyString => None
  | String a _ => if Ascii.eqb a "."%char then None else decimal_digits s 0 None
  end.

(** Libraries that are not there and a generator stuck at one half. *)
Definition offline : Env :=
  {| random_random := λ _, (1 # 2)%Q;
     requests_get := λ _, Exc RequestException;
     float_of_str := decimal_literal;
     import_minimalmodbus := Exc ImportError;
     Instrument_init := λ _ _, Some SerialException;
     setattr := λ _ _, None;
     read_register := λ _ _ _, Exc ModbusException;
     strftime := "12:00:00" |}.

(** A channel that answers with status 200 and the given [feeds]. *)
Definition cloud (feeds : json) : Env :=
  {| random_random := random_random offline;
     requests_get := λ _,
       Val {| status_code := 200;
              body := Some (JObj [("channel", JObj [("id", JNum 3187265)]);
                                  ("feeds", feeds)]) |};
     float_of_str := decimal_literal;
     import_minimalmodbus := import_minimalmodbus offline;
     Instrument_init := Instrument_init offline;
     setattr := setattr offline;
     read_register := read_register offline;
     strftime := strftime offline |}.

(** The mapping the sidebar starts with, lines 190-196. *)
Definition default_mapping : gmap string string :=
  <["Humidity" := "field7"]> (<["pH" := "field6"]>
  (<["Potassium" := "field5"]> (<["Phosphorus" := "field4"]>
  (<["Nitrogen" := "field3"]> (<["Moisture" := "field2"]>
  (<["Temperature" := "field1"]> ∅)))))).

(** A sample with every field set. *)
Definition full_sample : list (string * json) :=
       [("created_at", JStr "2025-01-01T00:00:00Z"); ("entry_id", JNum 7);
        ("field1", JStr "28.5"); ("field2", JStr "55");
        ("field3", JStr "180"); ("field4", JStr "40");
        ("field5", JStr "220"); ("field6", JStr "6.2");
        ("field7", JStr "70")].

(** A sample with fields that are null, empty or not there at all. *)
Definition sparse_sample : list (string * json) :=
       [("created_at", JStr "2025-01-01T00:00:00Z"); ("entry_id", JNum 8);
        ("field1", JStr "28.5"); ("field2", JNull);
        ("field4", JStr ""); ("field5", JStr "220");
        ("field6", JStr "6.2"); ("field7", JStr "70")].


(** A probe that answers the first two register reads and times out on
    the third. *)
Definition flaky_probe : Env :=
  {| random_random := random_random offline;
     requests_get := requests_get offline;
     float_of_str := decimal_literal;
     import_minimalmodbus := Val tt;
     Instrument_init := λ _ _, None;
     setattr := λ _ _, None;
     read_register := λ addr _ _,
       if (addr <? 2)%Z then Val (256 # 10)%Q else Exc ModbusException;
     strftime := strftime offline |}.

(** The sidebar as it starts, with the simulation chosen. *)
Definition simulation_config : Config :=
  {| mode := "Simulation Mode"; com_port := "COM3"; baudrate := 9600;
     slave_id := 1; timeout := 1; function_code := 3;
     ts_channel := "3187265"; ts_key := "KEY"; ts_mapping := ∅ |}.

(** The cycle number [i] of a session, run at a time of its own. *)
Definition simulation_cycle (i : nat) : Cycle :=
  ({| random_random := λ k, (1 # Pos.of_nat (2 + i + k))%Q;
      requests_get := requests_get offline;
      float_of_str := decimal_literal;
      import_minimalmodbus := import_minimalmodbus offline;
      Instrument_init := Instrument_init offline;
      setattr := setattr offline;
      read_register := read_register offline;
      strftime := String (ascii_of_nat (65 + i)) EmptyString |},
   Some two_healthy, simulation_config).

(** A probe that answers every register read with its address. *)
Definition steady_probe : Env :=
  {| random_random := random_random offline;
     requests_get := requests_get offline;
     float_of_str := decimal_literal;
     import_minimalmodbus := Val tt;
     Instrument_init := λ _ _, None;
     setattr := λ _ _, None;
     read_register := λ addr _ _, Val (inject_Z addr);
     strftime := strftime offline |}.

(** A probe whose line is cut while the fourth register is read. *)
Definition interrupted_probe : Env :=
  {| random_random := random_random offline;
     requests_get := requests_get offline;
     float_of_str := decimal_literal;
     import_minimalmodbus := Val tt;
     Instrument_init := λ _ _, None;
     setattr := λ _ _, None;
     read_register := λ addr _ _,
       if (addr <? 3)%Z then Val (inject_Z addr) else Exc KeyboardInterrupt;
     strftime := strftime offline |}.

(** A disk on which every file is there but the scaler; a file
    unpickles to its own name. *)
Definition no_scaler : Loader.Env string :=
  {| Loader.os_sep := "/";
     Loader.joblib_load := λ path,
       if String.eqb path "model_results/scaler.pkl"
       then inr Loader.FileNotFoundError else inl path |}.

(** A disk with all five files. *)
Definition all_files : Loader.Env string :=
  {| Loader.os_sep := "/"; Loader.joblib_load := λ path, inl path |}.

(** A sensor that answers at 4800 baud under the slave address 2 only. *)
Definition sensor_4800_2 : Scanner.Env :=
  {| Scanner.Instrument_init := λ _ _, None;
     Scanner.setattr := λ _ _, None;
     Scanner.read_register := λ baud slave_id,
       if ((baud =? 4800) && (slave_id =? 2))%Z
       then Val (256 # 10)%Q else Exc ModbusException |}.

(** A port that cannot be opened. *)
Definition no_port : Scanner.Env :=
  {| Scanner.Instrument_init := λ _ _, Some SerialException;
     Scanner.setattr := λ _ _, None;
     Scanner.read_register := λ _ _, Val 0%Q |}.

(** A reading far outside of what a sensor can give. *)
Definition wild_reading : gmap string Q :=
  <["Humidity" := 70%Q]> (<["pH" := 99%Q]> (<["Potassium" := (-5)%Q]>
  (<["Phosphorus" := 100000%Q]> (<["Nitrogen" := 0%Q]>
  (<["Moisture" := 250%Q]> (<["Temperature" := (-500)%Q]> ∅)))))).

End Examples.

(** * Properties *)

(** Membership in a list that is written out. *)
Ltac in_list := repeat first [by left | right].

(** ** Rules for blocks *)

Section PyFacts.
Import Py.
Context {S : Type}.

Lemma hoare_conseq {A} (P P' : S → Prop) (Q Q' : res A → S → Prop) m :
  (∀ s, P' s → P s) → (∀ r s, Q r s → Q' r s) →
  hoare P m Q → hoare P' m Q'.
Proof. intros HP HQ Hm s Hs. apply HQ, Hm, HP, Hs. Qed.

Lemma hoare_ret {A} (P : S → Prop) (a : A) Q :
  (∀ s, P s → Q (Val a) s) → hoare P (ret a) Q.
Proof. intros H s Hs. by apply H. Qed.

(** Sequencing: an exception of the first block is the end of both. *)
Lemma hoare_bind {A B} (P : S → Prop) (m : M S A) (k : A → M S B)
    (R : A → S → Prop) (Q : res B → S → Prop) :
  hoare P m (λ r s, match r with Val a => R a s | Exc e => Q (Exc e) s end) →
  (∀ a, hoare (R a) (k a) Q) →
  hoare P (bind m k) Q.
Proof.
  intros Hm Hk s Hs. specialize (Hm s Hs). unfold bind.
  destruct (m s) as [[a|e] s']; simpl in *; [by apply Hk | done].
Qed.

(** A handler runs from the state the body raised in. *)
Lemma hoare_try_except {A} (P : S → Prop) (body : M S A) handler
    (R : exn → S → Prop) (Q : res A → S → Prop) :
  hoare P body (λ r s, match r with
                       | Val a => Q (Val a) s
                       | Exc e => match handler e with
                                  | Some _ => R e s
                                  | None => Q (Exc e) s
                                  end
                       end) →
  (∀ e h, handler e = Some h → hoare (R e) h Q) →
  hoare P (try_except body handler) Q.
Proof.
  intros Hb Hh s Hs. specialize (Hb s Hs). unfold try_except.
  destruct (body s) as [[a|e] s']; simpl in *; [done |].
  destruct (handler e) as [h|] eqn:E; [by eapply Hh | done].
Qed.

(** The cleanup runs whatever the body did. *)
Lemma hoare_try_finally {A} (P : S → Prop) (body : M S A) cleanup
    (R : res A → S → Prop) (Q : res A → S → Prop) :
  hoare P body R →
  (∀ r, hoare (R r) cleanup
          (λ c s, match c with Val _ => Q r s | Exc e => Q (Exc e) s end)) →
  hoare P (try_finally body cleanup) Q.
Proof.
  intros Hb Hc s Hs. specialize (Hb s Hs). unfold try_finally.
  destruct (body s) as [r s']; simpl in *.
  specialize (Hc r s' Hb). by destruct (cleanup s') as [[[]|e] s''].
Qed.

Lemma hoare_with_locals {Lc A} (P : S → Prop) (init : Lc)
    (m : M (Lc * S) A) (Q : res A → S → Prop) :
  hoare (λ fr, fr.1 = init ∧ P fr.2) m (λ r fr, Q r fr.2) →
  hoare P (with_locals init m) Q.
Proof.
  intros Hm s Hs. specialize (Hm (init, s) (conj eq_refl Hs)).
  unfold with_locals. by destruct (m (init, s)) as [r [l s']].
Qed.
End PyFacts.

(** ** The vote *)

Section ConsensusFacts.
Import Consensus.
Context {L : Type} `{EqDecision L}.
Implicit Types (c rest : counter (L := L)) (best : L * nat).
Implicit Types (votes : list L) (x l : L).

(** The keys of a counter after one more element. *)
Lemma counter_incr_keys c x :
  (counter_incr c x).*1 = if decide (x ∈ c.*1) then c.*1 else c.*1 ++ [x].
Proof.
  induction c as [|[k n] c IH]; csimpl; [done |].
  - destruct (decide (k = x)) as [->|Hne]; csimpl.
    + rewrite decide_True; [done | left].
    + rewrite IH. destruct (decide (x ∈ c.*1)) as [Hin|Hnin].
      * rewrite decide_True; [done | by right].
      * rewrite decide_False; [done |].
        intros Hin. apply elem_of_cons in Hin as [?|?]; congruence.
Qed.

Lemma counter_incr_fresh c x :
  x ∉ c.*1 → counter_incr c x = c ++ [(x, 1)].
Proof.
  induction c as [|[k n] c IH]; simpl; intros Hnin; [done |].
  apply not_elem_of_cons in Hnin as [Hne Hnin].
  rewrite decide_False by congruence. by rewrite IH.
Qed.

Lemma fold_counter_incr_keys votes c x :
  x ∈ (fold_left counter_incr votes c).*1 → x ∈ c.*1 ∨ x ∈ votes.
Proof.
  revert c. induction votes as [|v votes IH]; simpl; intros c Hx; [by left |].
  apply IH in Hx as [Hx | Hx]; [| right; by right].
  rewrite counter_incr_keys in Hx. case_decide; [by left |].
  apply elem_of_app in Hx as [Hx | Hx]; [by left |].
  apply list_elem_of_singleton in Hx as ->. right; left.
Qed.

Lemma max_by_count_in best rest :
  max_by_count best rest ∈ best :: rest.
Proof.
  revert best. induction rest as [|y rest IH]; simpl; intros best; [left |].
  specialize (IH (if (best.2 <? y.2)%nat then y else best)).
  apply elem_of_cons in IH as [-> | IH].
  - destruct (best.2 <? y.2)%nat; [right; left | left].
  - right; by right.
Qed.

(** Whatever the votes, the consensus is the label of one of them. *)
Lemma consensus_of_in votes l :
  consensus_of votes = Some l → l ∈ votes.
Proof.
  unfold consensus_of, most_common_1, Counter.
  destruct (fold_left counter_incr votes []) as [|x rest] eqn:E; [done |].
  intros [= <-].
  assert (Hin : (max_by_count x rest).1 ∈ (fold_left counter_incr votes []).*1).
  { rewrite E. apply list_elem_of_fmap. eexists; split; [done |].
    apply max_by_count_in. }
  apply fold_counter_incr_keys in Hin as [Hin | Hin]; [| done].
  simpl in Hin. by apply not_elem_of_nil in Hin.
Qed.

(** A counter is never emptied, so a vote that was cast gives a result. *)
Lemma fold_counter_incr_nonempty votes c :
  c ≠ [] → fold_left counter_incr votes c ≠ [].
Proof.
  revert c. induction votes as [|v votes IH]; simpl; intros c Hc; [done |].
  apply IH. destruct c as [|[k n] c]; simpl; [done |]. by case_decide.
Qed.

Lemma consensus_of_is_Some votes :
  votes ≠ [] → is_Some (consensus_of votes).
Proof.
  destruct votes as [|v votes]; [done | intros _].
  unfold consensus_of, most_common_1, Counter. simpl.
  pose proof (fold_counter_incr_nonempty votes [(v, 1)]) as Hne.
  destruct (fold_left counter_incr votes [(v, 1)]); [by destruct Hne | by eexists].
Qed.

(** Among items that all have the same count the first one stays. *)
Lemma max_by_count_all_equal best rest :
  Forall (λ y, y.2 = best.2) rest → max_by_count best rest = best.
Proof.
  revert best. induction rest as [|y rest IH]; simpl; intros best Hall; [done |].
  inversion Hall as [|? ? Hy Hrest]; subst.
  rewrite Hy, Nat.ltb_irrefl. by apply IH.
Qed.

Lemma fold_counter_incr_NoDup votes c :
  NoDup (c.*1 ++ votes) →
  fold_left counter_incr votes c = c ++ ((λ x, (x, 1)) <$> votes).
Proof.
  revert c. induction votes as [|v votes IH]; simpl; intros c Hnd.
  - by rewrite app_nil_r.
  - rewrite counter_incr_fresh.
    + rewrite IH.
      * by rewrite <- app_assoc.
      * rewrite fmap_app. simpl. by rewrite <- app_assoc.
    + apply NoDup_app in Hnd as (_ & Hdisj & _).
      intros Hin. apply (Hdisj _ Hin). left.
Qed.

(** With no two votes alike, the first vote is the consensus. *)
Lemma consensus_of_NoDup x votes :
  NoDup (x :: votes) → consensus_of (x :: votes) = Some x.
Proof.
  intros Hnd. unfold consensus_of, most_common_1, Counter.
  rewrite (fold_counter_incr_NoDup (x :: votes) []) by done.
  simpl. rewrite max_by_count_all_equal; [done |].
  apply Forall_fmap, Forall_forall. by intros.
Qed.

Lemma tally_cons x y votes :
  tally x (y :: votes) = ((if decide (y = x) then 1 else 0) + tally x votes)%nat.
Proof.
  unfold tally. destruct (decide (y = x)) as [Heq|Hne].
  - by rewrite filter_cons_True.
  - by rewrite filter_cons_False.
Qed.

Lemma tally_snoc x y votes :
  tally x (votes ++ [y]) = (tally x votes + if decide (y = x) then 1 else 0)%nat.
Proof.
  unfold tally. rewrite filter_app, length_app. f_equal.
  destruct (decide (y = x)) as [Heq|Hne].
  - by rewrite filter_cons_True.
  - by rewrite filter_cons_False.
Qed.

Lemma tally_0 x votes : x ∉ votes → tally x votes = 0%nat.
Proof.
  induction votes as [|y votes IH]; intros Hnin; [done |].
  apply not_elem_of_cons in Hnin as [Hne Hnin].
  rewrite tally_cons, decide_False by congruence. by rewrite IH.
Qed.

Lemma tally_pos x votes : (0 < tally x votes)%nat → x ∈ votes.
Proof.
  intros Hpos. destruct (decide (x ∈ votes)) as [|Hnin]; [done |].
  rewrite tally_0 in Hpos by done. lia.
Qed.

(** Two different labels share the votes between them. *)
Lemma tally_two x l votes :
  x ≠ l → (tally x votes + tally l votes ≤ length votes)%nat.
Proof.
  intros Hne. induction votes as [|y votes IH]; [done |].
  rewrite !tally_cons. simpl length.
  destruct (decide (y = x)), (decide (y = l)); subst; try congruence; lia.
Qed.

(** The entries of a counter whose keys are all different, after one
    more element. *)
Lemma counter_incr_elem c x k n :
  NoDup c.*1 →
  (k, n) ∈ counter_incr c x →
  (k ≠ x ∧ (k, n) ∈ c) ∨
  (k = x ∧ ((∃ n', n = S n' ∧ (x, n') ∈ c) ∨ (n = 1%nat ∧ x ∉ c.*1))).
Proof.
  induction c as [|[k' n'] c IH]; csimpl; intros Hnd Hin.
  - apply list_elem_of_singleton in Hin as [= -> ->].
    right. split; [done |]. right. split; [done | apply not_elem_of_nil].
  - apply NoDup_cons in Hnd as [Hk' Hnd].
    destruct (decide (k' = x)) as [->|Hne].
    + apply elem_of_cons in Hin as [[= -> ->] | Hin].
      * right. split; [done |]. left. eexists. split; [done | left].
      * left. split; [| by right].
        intros ->. apply Hk'. apply list_elem_of_fmap. by exists (x, n).
    + apply elem_of_cons in Hin as [[= -> ->] | Hin].
      * left. split; [done | left].
      * destruct (IH Hnd Hin) as [[Hkx Hc] | [-> [(m & -> & Hc) | [-> Hc]]]].
        -- left. split; [done | by right].
        -- right. split; [done |]. left. exists m. split; [done | by right].
        -- right. split; [done |]. right. split; [done |].
           by apply not_elem_of_cons.
Qed.

Lemma counter_incr_NoDup c x : NoDup c.*1 → NoDup (counter_incr c x).*1.
Proof.
  intros Hnd. rewrite counter_incr_keys. case_decide; [done |].
  apply NoDup_app. split_and!; [done | | apply NoDup_singleton].
  intros y Hy Hx. apply list_elem_of_singleton in Hx as ->. done.
Qed.

(** What a counter holds after counting [votes]: every key once, with
    its number of votes, and every label voted for among the keys. *)
Lemma fold_counter_incr_spec votes c seen :
  NoDup c.*1 →
  (∀ k n, (k, n) ∈ c → n = tally k seen) →
  (∀ k, k ∈ seen → k ∈ c.*1) →
  let c' := fold_left counter_incr votes c in
  NoDup c'.*1 ∧
  (∀ k n, (k, n) ∈ c' → n = tally k (seen ++ votes)) ∧
  (∀ k, k ∈ seen ++ votes → k ∈ c'.*1).
Proof.
  revert c seen. induction votes as [|v votes IH]; intros c seen Hnd Hcnt Hkeys.
  - simpl. by rewrite app_nil_r.
  - simpl fold_left. replace (seen ++ v :: votes) with ((seen ++ [v]) ++ votes)
      by (by rewrite <- app_assoc).
    apply IH.
    + by apply counter_incr_NoDup.
    + intros k n Hin. rewrite tally_snoc.
      apply counter_incr_elem in Hin
        as [[Hkx Hc] | [-> [(m & -> & Hc) | [-> Hc]]]]; [| | | done].
      * rewrite decide_False by congruence. rewrite (Hcnt _ _ Hc). lia.
      * rewrite decide_True by done. rewrite (Hcnt _ _ Hc). lia.
      * rewrite decide_True by done. rewrite tally_0; [done |].
        intros Hs. by apply Hc, Hkeys.
    + intros k Hk. rewrite counter_incr_keys.
      apply elem_of_app in Hk as [Hk | Hk].
      * case_decide; [by apply Hkeys |]. apply elem_of_app. left. by apply Hkeys.
      * apply list_elem_of_singleton in Hk as ->.
        case_decide; [done |]. apply elem_of_app. right. left.
Qed.

(** [max] returns an item no other item has more votes than. *)
Lemma max_by_count_ge best rest y :
  y ∈ best :: rest → (y.2 ≤ (max_by_count best rest).2)%nat.
Proof.
  revert best y. induction rest as [|z rest IH]; simpl; intros best y Hy.
  - apply list_elem_of_singleton in Hy as ->. done.
  - assert (Hbest : ∀ b, b ∈ [best; z] →
              (b.2 ≤ (if (best.2 <? z.2)%nat then z else best).2)%nat).
    { intros b Hb. destruct (Nat.ltb_spec best.2 z.2);
        apply elem_of_cons in Hb as [-> | Hb];
        try apply list_elem_of_singleton in Hb as ->; lia. }
    apply elem_of_cons in Hy as [-> | Hy].
    + etrans; [apply Hbest; left |]. apply IH. left.
    + apply elem_of_cons in Hy as [-> | Hy].
      * etrans; [apply Hbest; right; left |]. apply IH. left.
      * apply IH. by right.
Qed.

(** A label with more than half of the votes is the consensus. *)
Lemma consensus_of_majority votes l :
  (length votes < 2 * tally l votes)%nat → consensus_of votes = Some l.
Proof.
  intros Hmaj.
  assert (Hl : l ∈ votes) by (apply tally_pos; lia).
  destruct (fold_counter_incr_spec votes [] []) as (_ & Hcnt & Hkeys).
  { apply NoDup_nil_2. }
  { intros k n Hin. by apply not_elem_of_nil in Hin. }
  { intros k Hin. by apply not_elem_of_nil in Hin. }
  simpl in Hcnt, Hkeys.
  unfold consensus_of, most_common_1, Counter.
  destruct (fold_left counter_incr votes []) as [|x rest] eqn:E.
  - specialize (Hkeys l Hl). by apply not_elem_of_nil in Hkeys.
  - f_equal.
    pose proof (Hkeys l Hl) as Hkl.
    apply list_elem_of_fmap in Hkl as ([l' nl] & Hl' & Hin).
    simpl in Hl'. subst l'.
    pose proof (max_by_count_ge x rest _ Hin) as Hge. simpl in Hge.
    pose proof (max_by_count_in x rest) as Hm.
    destruct (max_by_count x rest) as [k n]. simpl in *.
    apply Hcnt in Hin, Hm. subst.
    destruct (decide (k = l)) as [|Hne]; [done |].
    pose proof (tally_two k l votes Hne). lia.
Qed.
End ConsensusFacts.

Section ClassifyFacts.
Import Consensus.

(** C1. When the Random-Forest, XGBoost and SVM labels are pairwise
    distinct, the consensus is the Random-Forest label; and any other
    invocation that decodes to the same three labels gives the same
    consensus. *)
Theorem classify_three_way_split {L} `{EqDecision L}
    (resources : Resources L) (scaled_features : list Q) :
  let v := classify resources scaled_features in
  rf_pred v ≠ xgb_pred v → xgb_pred v ≠ svm_pred v → rf_pred v ≠ svm_pred v →
  consensus v = Some (rf_pred v) ∧
  ∀ (resources' : Resources L) (scaled_features' : list Q),
    let v' := classify resources' scaled_features' in
    rf_pred v' = rf_pred v → xgb_pred v' = xgb_pred v →
    svm_pred v' = svm_pred v →
    consensus v' = Some (rf_pred v).
Proof.
  intros v Hab Hbc Hac.
  assert (Hnd : NoDup [rf_pred v; xgb_pred v; svm_pred v]).
  { repeat (apply NoDup_cons; split); try apply NoDup_nil_2;
      rewrite ?elem_of_cons; intros Hin; destruct_or?;
      try congruence; by apply not_elem_of_nil in Hin. }
  split.
  - by apply consensus_of_NoDup.
  - intros resources' scaled_features' v' Hrf Hxgb Hsvm.
    change (consensus v') with
      (consensus_of [rf_pred v'; xgb_pred v'; svm_pred v']).
    rewrite Hrf, Hxgb, Hsvm. by apply consensus_of_NoDup.
Qed.

Lemma classify_three_way_split_witness :
  let v := classify Examples.three_way [] in
  (rf_pred v ≠ xgb_pred v ∧ xgb_pred v ≠ svm_pred v ∧ rf_pred v ≠ svm_pred v) ∧
  consensus v = Some "Excess".
Proof.
  split; [by vm_compute |].
  apply (classify_three_way_split Examples.three_way []); by vm_compute.
Defined.

(** C2. A label that at least two of the three classifiers voted for is
    the consensus; the votes Healthy, Healthy, Deficient give Healthy. *)
Theorem classify_majority (resources : Resources string)
    (scaled_features : list Q) (l : string) :
  let v := classify resources scaled_features in
  (2 ≤ tally l [rf_pred v; xgb_pred v; svm_pred v])%nat →
  consensus v = Some l ∧
  consensus_of ["Healthy"; "Healthy"; "Deficient"] = Some "Healthy".
Proof.
  intros v Hmaj. split.
  - change (consensus v) with
      (consensus_of [rf_pred v; xgb_pred v; svm_pred v]).
    apply consensus_of_majority. simpl length. lia.
  - apply consensus_of_majority. vm_compute. lia.
Qed.

Lemma classify_majority_witness :
  let v := classify Examples.two_healthy [] in
  [rf_pred v; xgb_pred v; svm_pred v] = ["Healthy"; "Healthy"; "Deficient"] ∧
  consensus v = Some "Healthy".
Proof.
  split; [reflexivity |].
  apply (classify_majority Examples.two_healthy [] "Healthy").
  vm_compute. lia.
Defined.

Lemma classify_consensus_total {L} `{EqDecision L}
    (resources : Resources L) (scaled_features : list Q) :
  ∃ l, consensus (classify resources scaled_features) = Some l.
Proof.
  destruct (consensus_of_is_Some
              [rf_pred (classify resources scaled_features);
               xgb_pred (classify resources scaled_features);
               svm_pred (classify resources scaled_features)])
    as [l Hl]; [done |].
  by exists l.
Qed.

(** C10. The consensus is always there, and it is the label of at least
    one of the three classifiers. *)
Theorem classify_consensus_is_a_vote {L} `{EqDecision L}
    (resources : Resources L) (scaled_features : list Q) :
  let v := classify resources scaled_features in
  ∃ l, consensus v = Some l ∧
       (l = rf_pred v ∨ l = xgb_pred v ∨ l = svm_pred v).
Proof.
  intros v.
  destruct (consensus_of_is_Some [rf_pred v; xgb_pred v; svm_pred v])
    as [l Hl]; [done |].
  exists l. split; [done |].
  apply consensus_of_in in Hl.
  rewrite !elem_of_cons in Hl. destruct Hl as [?|[?|[?|Hl]]]; auto.
  by apply not_elem_of_nil in Hl.
Qed.
End ClassifyFacts.

(** ** The feature vector *)

Section VectorFacts.
Import Py Sensor Dashboard.

Lemma Reading_lookup (d : gmap string Q) (k : string) :
  Reading d → k ∈ field_names → is_Some (d !! k).
Proof.
  unfold Reading. intros Hdom Hk. apply elem_of_dom. rewrite Hdom.
  by apply elem_of_list_to_set.
Qed.

Lemma getitem_Some {S} (d : gmap string Q) (k : string) (v : Q) (s : S) :
  d !! k = Some v → getitem d k s = (Val v, s).
Proof. unfold getitem. by intros ->. Qed.

(** C5. For every Reading the row handed to the scaler holds exactly
    the six values Temperature, Moisture, Nitrogen, Phosphorus,
    Potassium, pH of the Reading, in that order and as they are; the
    Humidity of the Reading has no part in it. *)
Theorem input_data_six_fields {S} (d : gmap string Q) (s : S) :
  Reading d →
  ∃ t m n p k ph,
    (d !! "Temperature" = Some t ∧ d !! "Moisture" = Some m ∧
     d !! "Nitrogen" = Some n ∧ d !! "Phosphorus" = Some p ∧
     d !! "Potassium" = Some k ∧ d !! "pH" = Some ph) ∧
    input_data d s = (Val [t; m; n; p; k; ph], s) ∧
    ∀ h, input_data (<["Humidity" := h]> d) s = (Val [t; m; n; p; k; ph], s).
Proof.
  intros Hd.
  destruct (Reading_lookup d "Temperature" Hd) as [t Ht]; [in_list |].
  destruct (Reading_lookup d "Moisture" Hd) as [m Hm]; [in_list |].
  destruct (Reading_lookup d "Nitrogen" Hd) as [n Hn]; [in_list |].
  destruct (Reading_lookup d "Phosphorus" Hd) as [p Hp]; [in_list |].
  destruct (Reading_lookup d "Potassium" Hd) as [k Hk]; [in_list |].
  destruct (Reading_lookup d "pH" Hd) as [ph Hph]; [in_list |].
  exists t, m, n, p, k, ph. split; [done |]. split.
  - unfold input_data, bind.
    by rewrite (getitem_Some _ _ _ _ Ht), (getitem_Some _ _ _ _ Hm),
      (getitem_Some _ _ _ _ Hn), (getitem_Some _ _ _ _ Hp),
      (getitem_Some _ _ _ _ Hk), (getitem_Some _ _ _ _ Hph).
  - intros h. unfold input_data, bind.
    rewrite (getitem_Some _ "Temperature" t), (getitem_Some _ "Moisture" m),
      (getitem_Some _ "Nitrogen" n), (getitem_Some _ "Phosphorus" p),
      (getitem_Some _ "Potassium" k), (getitem_Some _ "pH" ph);
      by rewrite ?lookup_insert_ne.
Qed.

Lemma input_data_six_fields_witness :
  Reading Examples.wild_reading ∧
  ∃ t m n p k ph,
    (Examples.wild_reading !! "Temperature" = Some t ∧
     Examples.wild_reading !! "Moisture" = Some m ∧
     Examples.wild_reading !! "Nitrogen" = Some n ∧
     Examples.wild_reading !! "Phosphorus" = Some p ∧
     Examples.wild_reading !! "Potassium" = Some k ∧
     Examples.wild_reading !! "pH" = Some ph) ∧
    input_data Examples.wild_reading tt = (Val [t; m; n; p; k; ph], tt) ∧
    ∀ h, input_data (<["Humidity" := h]> Examples.wild_reading) tt
         = (Val [t; m; n; p; k; ph], tt).
Proof.
  assert (Hr : Reading Examples.wild_reading) by reflexivity.
  split; [exact Hr |].
  exact (input_data_six_fields Examples.wild_reading tt Hr).
Defined.
End VectorFacts.

(** ** The trend history *)

Section HistoryFacts.
Import Py Sensor Consensus Dashboard.

Implicit Types (h : History) (w : World) (vals : gmap string Q).

Lemma lift_run {A} (m : M World A) h w :
  lift m (h, w) = ((m w).1, (h, (m w).2)).
Proof. unfold lift. by destruct (m w). Qed.


Lemma input_data_run {S} vals (s : S) :
  (∀ k, k ∈ field_names → is_Some (vals !! k)) →
  ∃ row, input_data vals s = (Val row, s).
Proof.
  intros Hk. unfold input_data, bind, getitem, ret.
  destruct (Hk "Temperature") as [? ->]; [in_list |].
  destruct (Hk "Moisture") as [? ->]; [in_list |].
  destruct (Hk "Nitrogen") as [? ->]; [in_list |].
  destruct (Hk "Phosphorus") as [? ->]; [in_list |].
  destruct (Hk "Potassium") as [? ->]; [in_list |].
  destruct (Hk "pH") as [? ->]; [in_list |].
  by eexists.
Qed.

Lemma show_verdict_run (v : Verdict string) (c : string) h w :
  ∃ w', show_verdict v c (h, w) = (Val tt, (h, w')).
Proof.
  unfold show_verdict, bind. rewrite !lift_run. simpl.
  destruct (String.eqb c "Healthy"); rewrite lift_run; by eexists.
Qed.

Lemma plot_run h w : ∃ w', plot (h, w) = (Val tt, (h, w')).
Proof. unfold plot, bind, get. cbn -[lift]. rewrite lift_run. by eexists. Qed.

(** Lines 312-320 on a dict that has the fields: the point is appended
    to each list, and if that makes 31 time stamps, the first entry of
    each list goes. No [pop] meets an empty list. *)
Lemma update_history_run env vals h w :
  (∀ k, k ∈ field_names → is_Some (vals !! k)) →
  ∃ n p ph h',
    vals !! "Nitrogen" = Some n ∧ vals !! "Phosphorus" = Some p ∧
    vals !! "pH" = Some ph ∧
    update_history env vals (h, w) = (Val tt, (h', w)) ∧
    if decide (length (htime h) < 30)%nat then
      hN h' = hN h ++ [n] ∧ hP h' = hP h ++ [p] ∧
      hpH h' = hpH h ++ [ph] ∧ htime h' = htime h ++ [strftime env]
    else
      hN h' = tail (hN h ++ [n]) ∧ hP h' = tail (hP h ++ [p]) ∧
      hpH h' = tail (hpH h ++ [ph]) ∧
      htime h' = tail (htime h ++ [strftime env]).
Proof.
  intros Hk.
  destruct (Hk "Nitrogen") as [n Hn]; [in_list |].
  destruct (Hk "Phosphorus") as [p Hp]; [in_list |].
  destruct (Hk "pH") as [ph Hph]; [in_list |].
  exists n, p, ph.
  unfold update_history, bind, getitem, get, ret. rewrite Hn, Hp, Hph.
  cbn -[Nat.ltb]. rewrite length_app.
  change (length [strftime env]) with 1%nat.
  destruct (decide (length (htime h) < 30)%nat) as [Hlt|Hge].
  - destruct (Nat.ltb_spec 30 (length (htime h) + 1)); [lia |].
    by eexists.
  - destruct (Nat.ltb_spec 30 (length (htime h) + 1)); [| lia].
    unfold pop_N, pop_P, pop_pH, pop_time. simpl.
    destruct h as [[|? ?] [|? ?] [|? ?] [|? ?]]; simpl; by eexists.
Qed.






Lemma show_metrics_ok vals h w :
  (∀ k, k ∈ field_names → is_Some (vals !! k)) →
  ∃ w', show_metrics vals (h, w) = (Val tt, (h, w')).
Proof.
  intros Hk. unfold show_metrics, bind, getitem, ret.
  destruct (Hk "Temperature") as [? ->]; [in_list |].
  destruct (Hk "Moisture") as [? ->]; [in_list |].
  destruct (Hk "Nitrogen") as [? ->]; [in_list |].
  destruct (Hk "Phosphorus") as [? ->]; [in_list |].
  destruct (Hk "Potassium") as [? ->]; [in_list |].
  destruct (Hk "pH") as [? ->]; [in_list |].
  destruct (Hk "Humidity") as [? ->]; [in_list |].
  rewrite !lift_run. by eexists.
Qed.

End HistoryFacts.

(** ** Simulation Mode *)

Section SimulationFacts.
Import Py Sensor.
Local Open Scope Q_scope.

Lemma round_half_even_near (q : Q) :
  (Qfloor q <= round_half_even q <= Qfloor q + 1)%Z.
Proof.
  unfold round_half_even.
  destruct (q - inject_Z (Qfloor q) ?= 1 # 2); [| lia | lia].
  destruct (Z.even (Qfloor q)); lia.
Qed.

(** Rounding does not cross an integer. *)
Lemma round_half_even_lower (q : Q) (a : Z) :
  inject_Z a <= q → (a <= round_half_even q)%Z.
Proof.
  intros Ha. apply Qfloor_resp_le in Ha. rewrite Qfloor_Z in Ha.
  pose proof (round_half_even_near q). lia.
Qed.

Lemma round_half_even_upper (q : Q) (b : Z) :
  q <= inject_Z b → (round_half_even q <= b)%Z.
Proof.
  intros Hb. pose proof (Qfloor_resp_le _ _ Hb) as Hf.
  rewrite Qfloor_Z in Hf.
  destruct (Z.eq_dec (Qfloor q) b) as [Heq|Hne].
  - unfold round_half_even.
    assert (Hlt : q - inject_Z (Qfloor q) < 1 # 2).
    { rewrite Heq. lra. }
    destruct (Qcompare_spec (q - inject_Z (Qfloor q)) (1 # 2)); [lra | lia | lra].
  - pose proof (round_half_even_near q). lia.
Qed.

Lemma pow10_pos (n : nat) : 0 < pow10 n.
Proof.
  unfold pow10. change 0 with (inject_Z 0). rewrite <- Zlt_Qlt.
  apply Z.pow_pos_nonneg; lia.
Qed.

Lemma Qdiv_le_mono (x y p : Q) : 0 < p → x <= y → x / p <= y / p.
Proof.
  intros Hp Hxy. unfold Qdiv. apply Qmult_le_compat_r; [done |].
  apply Qinv_le_0_compat. lra.
Qed.

Lemma Qle_div_mult (x y p : Q) : 0 < p → x / p <= y → x <= y * p.
Proof.
  intros Hp Hxy. rewrite <- (Qmult_div_r x p) by lra.
  rewrite (Qmult_comm p). apply Qmult_le_compat_r; lra.
Qed.

Lemma Qle_mult_div (x y p : Q) : 0 < p → y <= x / p → y * p <= x.
Proof.
  intros Hp Hxy. rewrite <- (Qmult_div_r x p) by lra.
  rewrite (Qmult_comm p). apply Qmult_le_compat_r; lra.
Qed.

(** [round(q, n)] stays between two bounds that have [n] decimals. *)
Lemma py_round_bounds (q lo hi : Q) (n : nat) (A B : Z) :
  lo == inject_Z A / pow10 n → hi == inject_Z B / pow10 n →
  lo <= q <= hi → lo <= py_round q n <= hi.
Proof.
  intros Hlo Hhi [Hl Hh]. pose proof (pow10_pos n) as Hpos.
  unfold py_round. rewrite Hlo, Hhi in *. split.
  - apply Qdiv_le_mono; [done |]. rewrite <- Zle_Qle.
    apply round_half_even_lower. by apply Qle_div_mult.
  - apply Qdiv_le_mono; [done |]. rewrite <- Zle_Qle.
    apply round_half_even_upper. by apply Qle_mult_div.
Qed.

(** [random.uniform(a, b)] for a draw in [[0, 1)]. *)
Lemma uniform_bounds (a b u : Q) :
  a <= b → 0 <= u < 1 → a <= a + (b - a) * u <= b.
Proof. intros Hab [Hu0 Hu1]. nra. Qed.

Lemma Reading_data0 : Reading data0.
Proof. reflexivity. Qed.

Lemma Reading_insert (d : gmap string Q) (k : string) (v : Q) :
  Reading d → k ∈ field_names → Reading (<[k := v]> d).
Proof.
  unfold Reading. intros Hd Hk. rewrite dom_insert_L, Hd.
  assert (Hin : k ∈ (list_to_set field_names : gset string))
    by (by apply elem_of_list_to_set).
  apply set_eq. intros x. rewrite elem_of_union, elem_of_singleton.
  split; [intros [-> | Hx]; done | by right].
Qed.

Lemma py_round_decimals (q : Q) (n : nat) : has_decimals n (py_round q n).
Proof. by eexists. Qed.

(** Lines 62-72 take seven draws, never raise, and sleep. *)
Lemma simulation_mode_run env (data : gmap string Q) w :
  let u k := random_random env (k + rng_calls w)%nat in
  simulation_mode env data w =
    (Val (Some (<["Humidity" := py_round (60 + (90 - 60) * u 6%nat) 1]>
               (<["pH" := py_round ((55 # 10) + ((75 # 10) - (55 # 10)) * u 5%nat) 2]>
               (<["Potassium" := py_round (150 + (300 - 150) * u 4%nat) 0]>
               (<["Phosphorus" := py_round (10 + (60 - 10) * u 3%nat) 0]>
               (<["Nitrogen" := py_round (100 + (250 - 100) * u 2%nat) 0]>
               (<["Moisture" := py_round (40 + (80 - 40) * u 1%nat) 1]>
               (<["Temperature" := py_round (22 + (35 - 22) * u 0%nat) 1]>
                  data)))))))),
     {| rng_calls := 7 + rng_calls w;
        serial_is_open := serial_is_open w;
        trace := trace w ++ [Sleep (1 # 2)] |}).
Proof. reflexivity. Qed.

(** C7. In Simulation Mode, with every draw of the generator in
    [[0, 1)], the function returns a Reading, never [None] and never an
    exception, and each field is within its bounds and has the decimals
    of its precision. *)
Theorem simulation_mode_in_bounds env (com_port : string)
    (baudrate slave_id : Z) (timeout : Q) (function_code : Z)
    (ts_channel ts_key : string) (mapping : option (gmap string string)) w :
  (∀ k, 0 <= random_random env k < 1) →
  ∃ d w',
    get_sensor_data env "Simulation Mode" com_port baudrate slave_id
      timeout function_code ts_channel ts_key mapping w = (Val (Some d), w') ∧
    Reading d ∧
    ∃ t m n p k ph h,
      (d !! "Temperature" = Some t ∧ d !! "Moisture" = Some m ∧
       d !! "Nitrogen" = Some n ∧ d !! "Phosphorus" = Some p ∧
       d !! "Potassium" = Some k ∧ d !! "pH" = Some ph ∧
       d !! "Humidity" = Some h) ∧
      (22 <= t <= 35 ∧ 40 <= m <= 80 ∧ 100 <= n <= 250 ∧ 10 <= p <= 60 ∧
       150 <= k <= 300 ∧ 55 # 10 <= ph <= 75 # 10 ∧ 60 <= h <= 90) ∧
      (has_decimals 1 t ∧ has_decimals 1 m ∧ has_decimals 0 n ∧
       has_decimals 0 p ∧ has_decimals 0 k ∧ has_decimals 2 ph ∧
       has_decimals 1 h).
Proof.
  intros Hu. unfold get_sensor_data.
  change (String.eqb "Simulation Mode" "Simulation Mode") with true.
  cbv iota. rewrite simulation_mode_run. cbv zeta.
  eexists _, _. split; [reflexivity |]. split.
  { do 7 (apply Reading_insert; [| in_list]). apply Reading_data0. }
  eexists _, _, _, _, _, _, _. split.
  { repeat split; by simplify_map_eq. }
  split; [| repeat split; apply py_round_decimals].
  pose proof (λ a b, uniform_bounds a b) as Hub.
  split; [apply (py_round_bounds _ 22 35 1 220 350);
            [done | done | apply Hub; [lra | apply Hu]] |].
  split; [apply (py_round_bounds _ 40 80 1 400 800);
            [done | done | apply Hub; [lra | apply Hu]] |].
  split; [apply (py_round_bounds _ 100 250 0 100 250);
            [done | done | apply Hub; [lra | apply Hu]] |].
  split; [apply (py_round_bounds _ 10 60 0 10 60);
            [done | done | apply Hub; [lra | apply Hu]] |].
  split; [apply (py_round_bounds _ 150 300 0 150 300);
            [done | done | apply Hub; [lra | apply Hu]] |].
  split; [apply (py_round_bounds _ (55 # 10) (75 # 10) 2 550 750);
            [done | done | apply Hub; [lra | apply Hu]] |].
  apply (py_round_bounds _ 60 90 1 600 900);
    [done | done | apply Hub; [lra | apply Hu]].
Qed.

Lemma simulation_mode_in_bounds_witness :
  (∀ k, 0 <= random_random Examples.offline k < 1) ∧
  ∃ d w',
    get_sensor_data Examples.offline "Simulation Mode" "COM3" 9600 1 1 3
      "" "" None Examples.fresh = (Val (Some d), w') ∧
    Reading d ∧
    ∃ t, d !! "Temperature" = Some t ∧ 22 <= t <= 35 ∧ has_decimals 1 t.
Proof.
  assert (Hu : ∀ k, 0 <= random_random Examples.offline k < 1).
  { intros k. simpl. split; [by vm_compute | reflexivity]. }
  split; [exact Hu |].
  destruct (simulation_mode_in_bounds Examples.offline "COM3" 9600 1 1 3
              "" "" None Examples.fresh Hu)
    as (d & w' & Hrun & Hd & t & m & n & p & k & ph & h & Hlook & Hb & Hdec).
  exists d, w'. split; [exact Hrun |]. split; [exact Hd |].
  exists t. split; [exact (proj1 Hlook) |].
  split; [exact (proj1 Hb) | exact (proj1 Hdec)].
Defined.

(** Ties go to the even neighbour, as [round(2.5)] is 2 and
    [round(3.5)] is 4. *)
Example round_half_even_ties :
  round_half_even (5 # 2) = 2%Z ∧ round_half_even (7 # 2) = 4%Z ∧
  round_half_even (-5 # 2) = (-2)%Z.
Proof. by vm_compute. Qed.

(** A draw of one half gives the middle of each range. *)
Example simulation_mode_midpoints :
  (get_sensor_data Examples.offline "Simulation Mode" "COM3" 9600 1 1 3
     "" "" None Examples.fresh).1
  = Val (Some (<["Humidity" := (750 # 10)%Q]> (<["pH" := (650 # 100)%Q]>
              (<["Potassium" := (225 # 1)%Q]> (<["Phosphorus" := (35 # 1)%Q]>
              (<["Nitrogen" := (175 # 1)%Q]> (<["Moisture" := (600 # 10)%Q]>
              (<["Temperature" := (285 # 10)%Q]> data0)))))))).
Proof. reflexivity. Qed.
End SimulationFacts.

(** ** ThingSpeak Cloud *)

Section ThingSpeakFacts.
Import Py Sensor.
Implicit Types (env : Env) (w : World) (m : gmap string string).

Lemma get_sensor_data_thingspeak env (com_port : string)
    (baudrate slave_id : Z) (timeout : Q) (function_code : Z)
    (ts_channel ts_key : string) (mapping : option (gmap string string)) :
  get_sensor_data env "ThingSpeak Cloud" com_port baudrate slave_id timeout
    function_code ts_channel ts_key mapping
  = thingspeak_cloud env ts_channel ts_key mapping data0.
Proof. reflexivity. Qed.

(** C4. When the channel answers with a body whose [feeds] array is
    empty, the function returns [None], never the Reading of seven
    zeros: with the warning that the channel is empty, or, on a status
    of the 4xx and 5xx ranges, with the error of the request. *)
Theorem thingspeak_empty_feed env (com_port : string)
    (baudrate slave_id : Z) (timeout : Q) (function_code : Z)
    (ts_channel ts_key : string) (mapping : option (gmap string string))
    w (response : Response) (kvs : list (string * json)) :
  requests_get env (feed_url ts_channel ts_key) = Val response →
  body response = Some (JObj kvs) →
  assoc "feeds" kvs = Some (JArr []) →
  let run := get_sensor_data env "ThingSpeak Cloud" com_port baudrate
               slave_id timeout function_code ts_channel ts_key mapping w in
  run.1 = Val None ∧ run.1 ≠ Val (Some data0) ∧
  ∃ said,
    trace run.2 = trace w ++ [HttpGet (feed_url ts_channel ts_key); said] ∧
    (said = StWarning "ThingSpeak connected, but channel is empty." ∨
     said = StError "ThingSpeak Error" HTTPError).
Proof.
  intros Hget Hbody Hfeeds run. subst run.
  rewrite get_sensor_data_thingspeak.
  unfold thingspeak_cloud, try_except, thingspeak_try, bind, log, modify,
    of_res, raise_for_status, response_json.
  rewrite Hget, Hbody.
  destruct ((400 <=? status_code response) && (status_code response <? 600))%Z.
  - simpl. rewrite <- app_assoc. split_and!; [done | done |].
    eexists. split; [done | by right].
  - simpl. rewrite Hfeeds. simpl. rewrite <- app_assoc.
    split_and!; [done | done |]. eexists. split; [done | by left].
Qed.

Lemma thingspeak_empty_feed_witness :
  let env := Examples.cloud (JArr []) in
  let run := get_sensor_data env "ThingSpeak Cloud" "COM3" 9600 1 1 3
               "3187265" "KEY" (Some Examples.default_mapping)
               Examples.fresh in
  run.1 = Val None ∧ run.1 ≠ Val (Some data0) ∧
  ∃ said,
    trace run.2 = trace Examples.fresh
                    ++ [HttpGet (feed_url "3187265" "KEY"); said] ∧
    (said = StWarning "ThingSpeak connected, but channel is empty." ∨
     said = StError "ThingSpeak Error" HTTPError).
Proof.
  intros env.
  exact (thingspeak_empty_feed env "COM3" 9600 1 1 3 "3187265" "KEY"
           (Some Examples.default_mapping) Examples.fresh
           _ _ eq_refl eq_refl eq_refl).
Defined.

(** What [float(latest.get(key) or 0)] is handed for a field. *)
Local Abbreviation source_value m sample name :=
  (default JNull (m !! name ≫= λ key, assoc key sample)).
Local Abbreviation converted env m sample name :=
  (py_float (float_of_str env) (py_or (source_value m sample name) (JNum 0))).


Lemma py_float_exn parse v e :
  py_float parse v = Exc e → is_Exception e = true.
Proof.
  destruct v as [| | |str| |]; simpl; try by intros [= <-].
  destruct (parse str); [done | by intros [= <-]].
Qed.




(** Lines 76-90 on an answer with a latest sample: the request, the
    payload in the sidebar, and on to the fields. *)
Lemma thingspeak_try_latest env (ts_channel ts_key : string)
    (mapping : option (gmap string string)) (data : gmap string Q) w
    (response : Response) kvs samples sample created_at :
  requests_get env (feed_url ts_channel ts_key) = Val response →
  ((400 <=? status_code response) && (status_code response <? 600))%Z = false →
  body response = Some (JObj kvs) →
  assoc "feeds" kvs = Some (JArr samples) →
  last samples = Some (JObj sample) →
  assoc "created_at" sample = Some created_at →
  thingspeak_try env ts_channel ts_key mapping data w
  = (data <- apply_mapping env (JObj sample) mapping data ;; ret (Some data))
      {| rng_calls := rng_calls w; serial_is_open := serial_is_open w;
         trace := trace w ++ [HttpGet (feed_url ts_channel ts_key);
                              SidebarMarkdown "---";
                              SidebarMarkdown "### Raw Data Payload";
                              SidebarCaption created_at;
                              SidebarJson (JObj sample)] |}.
Proof.
  intros Hget Hstatus Hbody Hfeeds Hlast Hcreated.
  unfold thingspeak_try, raise_for_status, response_json.
  unfold bind at 1 2 3 4 5. unfold log, modify, of_res.
  rewrite Hget, Hstatus, Hbody. simpl. rewrite Hfeeds.
  assert (Htruthy : truthy (JArr samples) = true)
    by (by destruct samples).
  rewrite Htruthy. unfold bind at 1 2 3 4 5 6 7. simpl.
  rewrite ?Hfeeds. simpl. rewrite Hlast. simpl. rewrite Hcreated.
  by rewrite <- !app_assoc.
Qed.





(** The sample with every field set gives the Reading of its numbers. *)
Example thingspeak_full_sample :
  (get_sensor_data (Examples.cloud (JArr [JObj Examples.full_sample]))
     "ThingSpeak Cloud" "COM3" 9600 1 1 3 "3187265" "KEY"
     (Some Examples.default_mapping) Examples.fresh).1
  = Val (Some (<["Humidity" := (70 # 1)%Q]> (<["pH" := (62 # 10)%Q]>
              (<["Potassium" := (220 # 1)%Q]> (<["Phosphorus" := (40 # 1)%Q]>
              (<["Nitrogen" := (180 # 1)%Q]> (<["Moisture" := (55 # 1)%Q]>
              (<["Temperature" := (285 # 10)%Q]> data0)))))))).
Proof. reflexivity. Qed.

(** Without a mapping only the temperature is read, from [field1]. *)
Example thingspeak_no_mapping :
  (get_sensor_data (Examples.cloud (JArr [JObj Examples.full_sample]))
     "ThingSpeak Cloud" "COM3" 9600 1 1 3 "3187265" "KEY"
     (Some ∅) Examples.fresh).1
  = Val (Some (<["Temperature" := (285 # 10)%Q]> data0)).
Proof. reflexivity. Qed.
End ThingSpeakFacts.

(** ** Live Sensor Mode *)

Section LiveFacts.
Import Py Sensor.
Implicit Types (env : Env) (w : World) (fr : Frame).

Lemma appends_only_log e : appends_only (log e).
Proof. intros w. by exists [e]. Qed.

Lemma appends_only_assign_attr env name v :
  appends_only (assign_attr env name v).
Proof.
  intros w. exists [SetAttr name]. unfold assign_attr, bind, log, modify.
  by destruct (setattr env name v).
Qed.

Lemma appends_only_do_read_register env addr decimals fc :
  appends_only (do_read_register env addr decimals fc).
Proof.
  intros w. exists [ReadRegister addr decimals fc].
  unfold do_read_register, bind, log, modify, of_res. done.
Qed.

Lemma port_opened_app w0 w w' evs :
  port_opened w0 w → trace w' = trace w ++ evs → port_opened w0 w'.
Proof.
  intros (evs0 & Htr & i & Hi) Htr'. exists (evs0 ++ evs). split.
  - by rewrite Htr', Htr, app_assoc.
  - exists i. apply elem_of_app. by left.
Qed.

(** Once the variable holds the instrument, a step on the world keeps
    it there, whether the step returns or raises. *)
Lemma has_instrument_step {A} w0 (m : M World A) :
  appends_only m →
  hoare (has_instrument w0) (lift m) (λ _ fr, has_instrument w0 fr).
Proof.
  intros Hm [i w] [Hi Hop]. unfold lift. destruct (Hm w) as [evs Hevs].
  destruct (m w) as [r w']. simpl in *. split; [done |].
  by eapply port_opened_app.
Qed.

Lemma has_instrument_bind {A B} w0 (m : M World A) (k : A → M Frame B)
    (Q : res B → Frame → Prop) :
  appends_only m →
  (∀ e fr, has_instrument w0 fr → Q (Exc e) fr) →
  (∀ a, hoare (has_instrument w0) (k a) Q) →
  hoare (has_instrument w0) (bind (lift m) k) Q.
Proof.
  intros Hm He Hk. apply (hoare_bind _ _ _ (λ _, has_instrument w0)); [| done].
  eapply hoare_conseq; [| | by apply has_instrument_step]; [done |].
  intros [a|e] fr Hfr; [done | by apply He].
Qed.

(** Before the constructor, a step that opens and closes nothing. *)
Lemma no_instrument_step {A} w0 (m : M World A) :
  leaves_port m →
  hoare (no_instrument w0) (lift m) (λ _ fr, no_instrument w0 fr).
Proof.
  intros Hm [i w] (Hi & evs0 & Htr & Hno & Hnc & Hflag). unfold lift.
  destruct (Hm w) as (evs & Hevs & Hno' & Hnc' & Hflag').
  destruct (m w) as [r w']. simpl in *. split; [done |].
  exists (evs0 ++ evs). cbn [snd]. split_and!.
  - by rewrite Hevs, Htr, app_assoc.
  - intros j Hj. apply elem_of_app in Hj as [Hj | Hj];
      [by eapply Hno | by eapply Hno'].
  - intros Hj. apply elem_of_app in Hj as [Hj | Hj];
      [by apply Hnc | by apply Hnc'].
  - by rewrite Hflag'.
Qed.

Lemma no_instrument_bind {A B} w0 (m : M World A) (k : A → M Frame B)
    (Q : res B → Frame → Prop) :
  leaves_port m →
  (∀ e fr, no_instrument w0 fr → Q (Exc e) fr) →
  (∀ a, hoare (no_instrument w0) (k a) Q) →
  hoare (no_instrument w0) (bind (lift m) k) Q.
Proof.
  intros Hm He Hk. apply (hoare_bind _ _ _ (λ _, no_instrument w0)); [| done].
  eapply hoare_conseq; [| | by apply no_instrument_step]; [done |].
  intros [a|e] fr Hfr; [done | by apply He].
Qed.

Lemma leaves_port_log e :
  (∀ i, e ≠ OpenInstrument i) → e ≠ SerialClose → leaves_port (log e).
Proof.
  intros Ho Hc w. exists [e]. split_and!; [done | | | done].
  - intros i Hi. apply list_elem_of_singleton in Hi. by eapply Ho.
  - intros Hi. apply list_elem_of_singleton in Hi. by apply Hc.
Qed.

Lemma leaves_port_of_res {A} (r : res A) : leaves_port (of_res r).
Proof.
  intros w. exists []. simpl. rewrite app_nil_r.
  split_and!; [done | | | done]; intros; apply not_elem_of_nil.
Qed.

(** The constructor: it raises and nothing has happened, or it returns
    and the port is open. *)
Lemma new_instrument_step env (com_port : string) (slave_id : Z) w0 :
  hoare (no_instrument w0) (lift (new_instrument env com_port slave_id))
    (λ r fr, match r with
             | Val _ => port_opened w0 fr.2
             | Exc _ => no_instrument w0 fr
             end).
Proof.
  intros [i w] Hfr. unfold lift, new_instrument.
  destruct (Instrument_init env com_port slave_id) as [e|]; [done |].
  destruct Hfr as (_ & evs & Htr & _). simpl in Htr. simpl.
  exists (evs ++ [OpenInstrument {| port := com_port; address := slave_id |}]).
  simpl. split; [by rewrite Htr, app_assoc |].
  eexists. apply elem_of_app. right. left.
Qed.

(** Lines 116-156: wherever the body of the [try] ends, either no
    instrument was made or the variable holds the one that was. *)
Lemma live_try_ends env (com_port : string) (baudrate slave_id : Z)
    (timeout : Q) (function_code : Z) (data : gmap string Q) w0 :
  hoare (no_instrument w0)
    (live_try env com_port baudrate slave_id timeout function_code data)
    (λ _ fr, no_instrument w0 fr ∨ has_instrument w0 fr).
Proof.
  unfold live_try.
  apply no_instrument_bind; [by apply leaves_port_log | by left | intros _].
  apply no_instrument_bind; [apply leaves_port_of_res | by left | intros _].
  apply (hoare_bind _ _ _ (λ _ fr, port_opened w0 fr.2)).
  { eapply hoare_conseq; [| | apply new_instrument_step]; [done |].
    intros [a|e] fr Hfr; [done | by left]. }
  intros instrument.
  apply (hoare_bind _ _ _ (λ _, has_instrument w0)).
  { intros [i w] Hop. simpl. split; [by eexists | done]. }
  intros _.
  do 7 (apply has_instrument_bind;
          [apply appends_only_assign_attr | by right | intros _]).
  do 7 (apply has_instrument_bind;
          [apply appends_only_do_read_register | by right | intros ?];
        cbv zeta).
  apply hoare_ret. by right.
Qed.

(** Lines 158-163: a handler shows the error and changes nothing else. *)
Lemma live_except_ends e h w0 :
  live_except e = Some h →
  hoare (λ fr, no_instrument w0 fr ∨ has_instrument w0 fr) h
    (λ _ fr, no_instrument w0 fr ∨ has_instrument w0 fr).
Proof.
  intros Hh.
  assert (Hshape : ∃ text, h = (lift (log (StError text e)) ;;; ret None)).
  { unfold live_except in Hh. destruct (is_ImportError e).
    - injection Hh as <-. by eexists.
    - destruct (is_Exception e); [| done]. injection Hh as <-. by eexists. }
  destruct Hshape as [text ->].
  assert (Hno : hoare (no_instrument w0)
                  (lift (log (StError text e)) ;;; ret None)
                  (λ (_ : res (option (gmap string Q))) fr,
                     no_instrument w0 fr)).
  { apply no_instrument_bind; [by apply leaves_port_log | done |].
    intros _. by apply hoare_ret. }
  assert (Hhas : hoare (has_instrument w0)
                   (lift (log (StError text e)) ;;; ret None)
                   (λ (_ : res (option (gmap string Q))) fr,
                      has_instrument w0 fr)).
  { apply has_instrument_bind; [apply appends_only_log | done |].
    intros _. by apply hoare_ret. }
  intros fr [H | H]; [left; by apply Hno | right; by apply Hhas].
Qed.

(** Lines 164-166: the [finally] closes the port of the instrument that
    the variable holds. *)
Lemma live_finally_ends w0 :
  hoare (λ fr, no_instrument w0 fr ∨ has_instrument w0 fr) live_finally
    (λ r fr, r = Val tt ∧ released w0 fr.2).
Proof.
  intros [i w] [Hno | Hhas]; unfold live_finally, bind, get, lift; simpl.
  - destruct Hno as (Hi & evs & Htr & Hnone & Hnc & Hflag).
    simpl in Hi. subst i. simpl. split; [done |].
    exists evs. split; [done |]. by left.
  - destruct Hhas as ([j Hj] & evs & Htr & k & Hk). simpl in Hj. subst i.
    simpl in *. split; [done |]. exists (evs ++ [SerialClose]). split.
    + by rewrite Htr, app_assoc.
    + right. split_and!; [| by rewrite last_snoc | done].
      exists k. apply elem_of_app. by left.
Qed.

(** Lines 113-166 as a whole. *)
Lemma live_sensor_mode_released env (com_port : string)
    (baudrate slave_id : Z) (timeout : Q) (function_code : Z)
    (data : gmap string Q) w :
  released w (live_sensor_mode env com_port baudrate slave_id timeout
                function_code data w).2.
Proof.
  apply (hoare_with_locals (λ w', w' = w) None _ (λ _ w', released w w'));
    [| done].
  apply (hoare_try_finally _ _ _
           (λ _ fr, no_instrument w fr ∨ has_instrument w fr)).
  - apply (hoare_try_except _ _ _
             (λ _ fr, no_instrument w fr ∨ has_instrument w fr)).
    + eapply hoare_conseq; [| | apply (live_try_ends _ _ _ _ _ _ _ w)].
      * intros [i w'] [Hi Hw]. simpl in *. subst. split; [done |].
        exists []. rewrite app_nil_r.
        split_and!; [done | | | done]; intros; apply not_elem_of_nil.
      * intros [a|e] fr Hfr; [done |]. by destruct (live_except e).
    + intros e h Hh. exact (live_except_ends e h w Hh).
  - intros r. eapply hoare_conseq; [| | apply (live_finally_ends w)].
    + intros fr Hfr. exact Hfr.
    + intros c fr [-> Hrel]. exact Hrel.
Qed.

(** C6. In Live Sensor Mode, however the function ends (with the
    dict, with [None] after a failed import, a failed constructor, a
    failed assignment or a failed register read, or with an exception
    that no handler catches): if an instrument was made during the
    call, the last thing that happened is the close of its port, and the
    port is closed; if none was made, no port was closed or opened. *)
Theorem live_serial_closed env (com_port : string)
    (baudrate slave_id : Z) (timeout : Q) (function_code : Z)
    (ts_channel ts_key : string) (mapping : option (gmap string string)) w :
  let run := get_sensor_data env "Live Sensor Mode" com_port baudrate
               slave_id timeout function_code ts_channel ts_key mapping w in
  ∃ evs, trace run.2 = trace w ++ evs ∧
    ((∃ i, OpenInstrument i ∈ evs) →
     last evs = Some SerialClose ∧ serial_is_open run.2 = false) ∧
    ((∀ i, OpenInstrument i ∉ evs) →
     (SerialClose ∉ evs) ∧ serial_is_open run.2 = serial_is_open w).
Proof.
  intros run. subst run.
  change (get_sensor_data env "Live Sensor Mode" com_port baudrate slave_id
            timeout function_code ts_channel ts_key mapping)
    with (live_sensor_mode env com_port baudrate slave_id timeout
            function_code data0).
  destruct (live_sensor_mode_released env com_port baudrate slave_id timeout
              function_code data0 w) as (evs & Htr & Hcases).
  exists evs. split; [done |].
  destruct Hcases as [(Hno & Hnc & Hflag) | (Hop & Hlast & Hflag)].
  - split; [| done]. intros [i Hi]. by destruct (Hno i).
  - split; [done |]. intros Hno. destruct Hop as [i Hi]. by destruct (Hno i).
Qed.

(** The third register read raises: the port is closed all the same. *)
Example live_read_raises_port_closed :
  let run := get_sensor_data Examples.flaky_probe "Live Sensor Mode" "COM3"
               9600 1 1 3 "" "" None Examples.fresh in
  run.1 = Val None ∧ serial_is_open run.2 = false ∧
  trace run.2 =
    [Import "minimalmodbus";
     OpenInstrument {| port := "COM3"; address := 1 |};
     SetAttr "serial.baudrate"; SetAttr "serial.timeout";
     SetAttr "serial.bytesize"; SetAttr "serial.parity";
     SetAttr "serial.stopbits"; SetAttr "mode";
     SetAttr "clear_buffers_before_each_transaction";
     ReadRegister 0 1 3; ReadRegister 1 1 3; ReadRegister 2 0 3;
     StError "Sensor Connection Error" ModbusException;
     SerialClose].
Proof. by vm_compute. Qed.

(** The driver is not installed: there is no port to close. *)
Example live_import_fails_no_port :
  let run := get_sensor_data Examples.offline "Live Sensor Mode" "COM3"
               9600 1 1 3 "" "" None Examples.fresh in
  run.1 = Val None ∧ serial_is_open run.2 = false ∧
  trace run.2 =
    [Import "minimalmodbus";
     StError "'minimalmodbus' library not found. Please pip install it."
       ImportError].
Proof. by vm_compute. Qed.
End LiveFacts.

(** ** The choice of the mode *)

Section DispatchFacts.
Import Py Sensor.

(** C8, as the code has it. A mode that is one of the three names runs
    the lines of that mode, and those only, on the arguments as they
    were passed, and their result is the result of the function. Any
    other mode runs none of them: the function does nothing and returns
    [None]. *)
Theorem get_sensor_data_dispatch env (mode com_port : string)
    (baudrate slave_id : Z) (timeout : Q) (function_code : Z)
    (ts_channel ts_key : string) (mapping : option (gmap string string)) :
  let run := get_sensor_data env mode com_port baudrate slave_id timeout
               function_code ts_channel ts_key mapping in
  (mode = "Simulation Mode" → run = simulation_mode env data0) ∧
  (mode = "ThingSpeak Cloud" →
   run = thingspeak_cloud env ts_channel ts_key mapping data0) ∧
  (mode = "Live Sensor Mode" →
   run = live_sensor_mode env com_port baudrate slave_id timeout
           function_code data0) ∧
  (mode ∉ ["Simulation Mode"; "ThingSpeak Cloud"; "Live Sensor Mode"] →
   ∀ w, run w = (Val None, w)).
Proof.
  intros run. subst run. split_and!.
  - by intros ->.
  - by intros ->.
  - by intros ->.
  - intros Hmode w. unfold get_sensor_data.
    destruct (String.eqb_spec mode "Simulation Mode") as [->|_].
    { destruct Hmode. in_list. }
    destruct (String.eqb_spec mode "ThingSpeak Cloud") as [->|_].
    { destruct Hmode. in_list. }
    destruct (String.eqb_spec mode "Live Sensor Mode") as [->|_].
    { destruct Hmode. in_list. }
    done.
Qed.

(** A mode that is none of the three: no lines of any mode run, and the
    caller gets [None] without a word. *)
Lemma get_sensor_data_falls_through :
  let run := get_sensor_data Examples.offline "Manual Mode" "COM3" 9600 1 1
               3 "" "" None Examples.fresh in
  run = (Val None, Examples.fresh) ∧
  run ≠ simulation_mode Examples.offline data0 Examples.fresh ∧
  run ≠ thingspeak_cloud Examples.offline "" "" None data0 Examples.fresh ∧
  run ≠ live_sensor_mode Examples.offline "COM3" 9600 1 1 3 data0
          Examples.fresh.
Proof.
  intros run.
  assert (Hrun : run = (Val None, Examples.fresh)) by reflexivity.
  rewrite Hrun. split_and!; [done | | |].
  - rewrite simulation_mode_run. intros [=].
  - intros H. apply (f_equal (λ r, trace r.2)) in H. vm_compute in H.
    discriminate.
  - intros H. apply (f_equal (λ r, trace r.2)) in H. vm_compute in H.
    discriminate.
Qed.
End DispatchFacts.

(** ** A session in Simulation Mode *)

Section SessionFacts.
Import Py Sensor Consensus Dashboard.

(** With the models loaded, a cycle in Simulation Mode always puts a
    point into the history. *)
Lemma simulation_cycle_appends env (resources : Resources string) cfg
    (h : History) (w : World) :
  mode cfg = "Simulation Mode" →
  let h' := (run_dashboard_cycle env (Some resources) cfg (h, w)).2.1 in
  ∃ n p ph,
    if decide (length (htime h) < 30)%nat then
      hN h' = hN h ++ [n] ∧ hP h' = hP h ++ [p] ∧
      hpH h' = hpH h ++ [ph] ∧ htime h' = htime h ++ [strftime env]
    else
      hN h' = tail (hN h ++ [n]) ∧ hP h' = tail (hP h ++ [p]) ∧
      hpH h' = tail (hpH h ++ [ph]) ∧
      htime h' = tail (htime h ++ [strftime env]).
Proof.
  intros Hmode. unfold run_dashboard_cycle, bind. rewrite lift_run, Hmode.
  unfold get_sensor_data.
  change (String.eqb "Simulation Mode" "Simulation Mode") with true.
  cbv iota. rewrite simulation_mode_run. cbv zeta. cbn [fst snd].
  set (vals := <["Humidity" := _]> _).
  assert (Hk : ∀ k, k ∈ field_names → is_Some (vals !! k)).
  { intros k Hk. unfold field_names in Hk. rewrite !elem_of_cons in Hk.
    destruct_or?; subst; try (by eexists; subst vals; simplify_map_eq).
    by apply not_elem_of_nil in Hk. }
  assert (Htruthy : sensor_vals_truthy (Some vals) = true).
  { unfold sensor_vals_truthy. rewrite bool_decide_eq_false_2; [done |].
    intros Hempty. destruct (Hk "pH") as [? Hl]; [in_list |].
    by rewrite Hempty, lookup_empty in Hl. }
  rewrite Htruthy.
  match goal with
  | |- context [show_metrics vals (h, ?w1)] =>
      destruct (show_metrics_ok vals h w1 Hk) as [w2 ->]
  end.
  destruct (input_data_run (S := State) vals (h, w2) Hk) as [row ->].
  destruct (classify_consensus_total resources (scaler resources row))
    as [c ->].
  destruct (show_verdict_run (classify resources (scaler resources row)) c
              h w2) as [w3 ->].
  destruct (update_history_run env vals h w3 Hk)
    as (n & p & ph & h' & _ & _ & _ & -> & Hh').
  destruct (plot_run h' w3) as [w4 ->].
  by exists n, p, ph.
Qed.

(** A session of 31 cycles: the time stamp of the first is gone, that
    of the second is now the oldest, the last is the newest. *)
Example thirty_one_cycles :
  let h := (run_cycles (Examples.simulation_cycle <$> seq 0 31)
              (history0, Examples.fresh)).1 in
  has_length 30 h ∧ head (htime h) = Some "B" ∧ last (htime h) = Some "_".
Proof. by vm_compute. Qed.
End SessionFacts.

(** ** What [get_sensor_data] can return *)

Section OutcomeFacts.
Import Py Sensor.

(** An outcome that is no dict, or a dict that is a Reading. *)
Local Abbreviation reading_or_none :=
  (λ r : res (option (gmap string Q)),
     match r with Val (Some d) => Reading d | _ => True end).

(** An outcome that is no exception of the class [Exception]. *)
Local Abbreviation no_Exception :=
  (λ (A : Type) (r : res A),
     match r with Exc e => is_Exception e = false | Val _ => True end).

Lemma hoare_bind_any {S A B} (m : M S A) (k : A → M S B)
    (Q : res B → S → Prop) :
  (∀ e s, Q (Exc e) s) →
  (∀ a, hoare (λ _, True) (k a) Q) →
  hoare (λ _, True) (bind m k) Q.
Proof.
  intros He Hk. apply (hoare_bind _ _ _ (λ _ _, True)); [| done].
  intros s _. destruct (m s) as [[a|e] s']; simpl; [done | apply He].
Qed.

(** Lines 91-102 only ever set fields of the dict. *)
Lemma apply_mapping_Reading env latest mapping (data : gmap string Q) :
  Reading data →
  hoare (λ _, True) (apply_mapping env latest mapping data)
    (λ r _, match r with Val d => Reading d | Exc _ => True end).
Proof.
  intros Hd. unfold apply_mapping. destruct (mapping_truthy mapping).
  - do 7 (apply hoare_bind_any; [done | intros ?]; cbv zeta).
    apply hoare_ret. intros _ _.
    by do 7 (apply Reading_insert; [| in_list]).
  - apply hoare_bind_any; [done | intros ?]; cbv zeta.
    apply hoare_ret. intros _ _. apply Reading_insert; [done | in_list].
Qed.

Lemma thingspeak_cloud_Reading env (ts_channel ts_key : string) mapping
    (data : gmap string Q) :
  Reading data →
  hoare (λ _, True) (thingspeak_cloud env ts_channel ts_key mapping data)
    (λ r _, reading_or_none r).
Proof.
  intros Hd. unfold thingspeak_cloud.
  apply (hoare_try_except _ _ _ (λ _ _, True)).
  - apply (hoare_conseq (λ _, True) _ (λ r _, reading_or_none r)); [done | |].
    { intros [[d|]|e] s Hr; [done | done |]. by destruct (thingspeak_except e). }
    unfold thingspeak_try. cbv zeta.
    do 5 (apply hoare_bind_any; [done | intros ?]).
    destruct (truthy _).
    + do 7 (apply hoare_bind_any; [done | intros ?]).
      apply (hoare_bind _ _ _ (λ d _, Reading d)).
      * by apply apply_mapping_Reading.
      * intros d. by apply hoare_ret.
    + apply hoare_bind_any; [done | intros ?]. by apply hoare_ret.
  - intros e h Hh. unfold thingspeak_except in Hh.
    destruct (is_Exception e); [| done]. injection Hh as <-.
    apply hoare_bind_any; [done | intros ?]. by apply hoare_ret.
Qed.

Lemma live_sensor_mode_Reading env (com_port : string) (baudrate slave_id : Z)
    (timeout : Q) (function_code : Z) (data : gmap string Q) :
  Reading data →
  hoare (λ _, True)
    (live_sensor_mode env com_port baudrate slave_id timeout function_code data)
    (λ r _, reading_or_none r).
Proof.
  intros Hd. unfold live_sensor_mode.
  apply hoare_with_locals.
  apply (hoare_try_finally _ _ _ (λ r _, reading_or_none r)).
  - apply (hoare_conseq (λ _, True) _ (λ r _, reading_or_none r)); [done | |].
    { intros r s Hr. exact Hr. }
    apply (hoare_try_except _ _ _ (λ _ _, True)).
    + apply (hoare_conseq (λ _, True) _ (λ r _, reading_or_none r)); [done | |].
      { intros [[d|]|e] s Hr; [done | done |]. by destruct (live_except e). }
      unfold live_try.
      do 18 (apply hoare_bind_any; [done | intros ?]; cbv zeta).
      apply hoare_ret. intros _ _. simpl.
      by do 7 (apply Reading_insert; [| in_list]).
    + intros e h Hh. unfold live_except in Hh.
      destruct (is_ImportError e); [injection Hh as <- |].
      * apply hoare_bind_any; [done | intros ?]. by apply hoare_ret.
      * destruct (is_Exception e); [| done]. injection Hh as <-.
        apply hoare_bind_any; [done | intros ?]. by apply hoare_ret.
  - intros r s Hr. destruct (live_finally s) as [[[]|e] s']; simpl; done.
Qed.

(** A dict that [get_sensor_data] returns is a Reading. *)
Lemma get_sensor_data_Reading env (mode com_port : string)
    (baudrate slave_id : Z) (timeout : Q) (function_code : Z)
    (ts_channel ts_key : string) (mapping : option (gmap string string))
    (w : World) (d : gmap string Q) :
  (get_sensor_data env mode com_port baudrate slave_id timeout function_code
     ts_channel ts_key mapping w).1 = Val (Some d) →
  Reading d.
Proof.
  unfold get_sensor_data.
  destruct (String.eqb mode "Simulation Mode").
  { rewrite simulation_mode_run. cbv zeta. intros [= <-].
    do 7 (apply Reading_insert; [| in_list]). apply Reading_data0. }
  destruct (String.eqb mode "ThingSpeak Cloud").
  { intros Hrun.
    pose proof (thingspeak_cloud_Reading env ts_channel ts_key mapping data0
                  Reading_data0 w I) as Hr.
    simpl in Hr. by rewrite Hrun in Hr. }
  destruct (String.eqb mode "Live Sensor Mode"); [| done].
  intros Hrun.
  pose proof (live_sensor_mode_Reading env com_port baudrate slave_id timeout
                function_code data0 Reading_data0 w I) as Hr.
  simpl in Hr. by rewrite Hrun in Hr.
Qed.

(** X1. In every mode and whatever the libraries answer, a dict that
    [get_sensor_data] returns has exactly the seven fields. *)
Theorem get_sensor_data_returns_Reading env (mode com_port : string)
    (baudrate slave_id : Z) (timeout : Q) (function_code : Z)
    (ts_channel ts_key : string) (mapping : option (gmap string string))
    (w : World) (d : gmap string Q) :
  (get_sensor_data env mode com_port baudrate slave_id timeout function_code
     ts_channel ts_key mapping w).1 = Val (Some d) →
  Reading d.
Proof. apply get_sensor_data_Reading. Qed.

Lemma get_sensor_data_returns_Reading_witness :
  ∃ d, (get_sensor_data (Examples.cloud (JArr [JObj Examples.sparse_sample]))
          "ThingSpeak Cloud" "COM3" 9600 1 1 3 "3187265" "KEY" (Some ∅)
          Examples.fresh).1 = Val (Some d) ∧
       Reading d.
Proof.
  exists (<["Temperature" := (285 # 10)%Q]> data0).
  assert (Hrun : (get_sensor_data
                    (Examples.cloud (JArr [JObj Examples.sparse_sample]))
                    "ThingSpeak Cloud" "COM3" 9600 1 1 3 "3187265" "KEY"
                    (Some ∅) Examples.fresh).1
                 = Val (Some (<["Temperature" := (285 # 10)%Q]> data0)))
    by reflexivity.
  split; [exact Hrun |].
  exact (get_sensor_data_returns_Reading _ _ _ _ _ _ _ _ _ _ _ _ Hrun).
Defined.




End OutcomeFacts.

(** ** ThingSpeak Cloud: failures and the missing mapping *)

Section CloudFacts.
Import Py Sensor.
Implicit Types (env : Env) (w : World) (m : gmap string string).

(** X3. When the request raises, the status is in the 4xx or 5xx range,
    or the body is no JSON, the function returns [None] after showing one
    error that names the cause; nothing goes to the sidebar. *)
Theorem thingspeak_request_fails env (com_port : string)
    (baudrate slave_id : Z) (timeout : Q) (function_code : Z)
    (ts_channel ts_key : string) (mapping : option (gmap string string))
    w (cause : exn) :
  let url := feed_url ts_channel ts_key in
  let run := get_sensor_data env "ThingSpeak Cloud" com_port baudrate
               slave_id timeout function_code ts_channel ts_key mapping w in
  (requests_get env url = Exc cause ∧ is_Exception cause = true) ∨
  (∃ response,
     requests_get env url = Val response ∧
     ((((400 <=? status_code response) && (status_code response <? 600))%Z
         = true ∧ cause = HTTPError) ∨
      (((400 <=? status_code response) && (status_code response <? 600))%Z
         = false ∧ body response = None ∧ cause = ValueError))) →
  run = (Val None,
         {| rng_calls := rng_calls w; serial_is_open := serial_is_open w;
            trace := trace w ++ [HttpGet url;
                                 StError "ThingSpeak Error" cause] |}).
Proof.
  intros url run Hcause. subst run.
  change (get_sensor_data env "ThingSpeak Cloud" com_port baudrate slave_id
            timeout function_code ts_channel ts_key mapping)
    with (thingspeak_cloud env ts_channel ts_key mapping data0).
  unfold thingspeak_cloud, try_except, thingspeak_try, bind, log, modify,
    of_res, raise_for_status, response_json. fold url.
  destruct Hcause as [[-> Hexc] | (response & -> & [[-> ->] | (-> & -> & ->)])].
  - simpl. unfold thingspeak_except. rewrite Hexc.
    unfold bind, log, modify, ret. simpl. by rewrite <- app_assoc.
  - simpl. unfold bind, log, modify, ret. simpl. by rewrite <- app_assoc.
  - simpl. unfold bind, log, modify, ret. simpl. by rewrite <- app_assoc.
Qed.

Lemma thingspeak_request_fails_witness :
  get_sensor_data Examples.offline "ThingSpeak Cloud" "COM3" 9600 1 1 3
    "3187265" "KEY" (Some Examples.default_mapping) Examples.fresh
  = (Val None,
     {| rng_calls := 0; serial_is_open := false;
        trace := [HttpGet (feed_url "3187265" "KEY");
                  StError "ThingSpeak Error" RequestException] |}).
Proof.
  exact (thingspeak_request_fails Examples.offline "COM3" 9600 1 1 3
           "3187265" "KEY" (Some Examples.default_mapping) Examples.fresh
           RequestException (or_introl (conj eq_refl eq_refl))).
Defined.



Lemma mapped_field_missing env sample m name w :
  m !! name = None →
  mapped_field env (JObj sample) (Some m) name w = (Exc KeyError, w).
Proof.
  intros Hm. unfold mapped_field, bind, of_res, mapping_getitem.
  by rewrite Hm.
Qed.

(** A conversion of a field leaves the world alone, and what it raises
    is an [Exception]. *)
Lemma mapped_field_outcome env sample m name w :
  ∃ r, mapped_field env (JObj sample) (Some m) name w = (r, w) ∧
       match r with Exc e => is_Exception e = true | Val _ => True end.
Proof.
  unfold mapped_field, float_get_or_0, bind, of_res, mapping_getitem.
  destruct (m !! name) as [key|]; [| by eexists]. simpl.
  destruct (py_float _ _) as [x|e] eqn:E; eexists; split; try done.
  by eapply py_float_exn.
Qed.

(** Lines 92-98 with a mapping that lacks a field. *)
Lemma apply_mapping_missing env m sample (data : gmap string Q) w f :
  m ≠ ∅ → f ∈ field_names → m !! f = None →
  ∃ e, apply_mapping env (JObj sample) (Some m) data w = (Exc e, w) ∧
       is_Exception e = true.
Proof.
  intros Hne Hf Hmiss. unfold apply_mapping, mapping_truthy.
  rewrite bool_decide_eq_false_2 by done. simpl. unfold bind.
  destruct (mapped_field_outcome env sample m "Temperature" w)
    as ([x1|e1] & E1 & H1); rewrite E1; [| by exists e1].
  destruct (mapped_field_outcome env sample m "Moisture" w)
    as ([x2|e2] & E2 & H2); rewrite E2; [| by exists e2].
  destruct (mapped_field_outcome env sample m "Nitrogen" w)
    as ([x3|e3] & E3 & H3); rewrite E3; [| by exists e3].
  destruct (mapped_field_outcome env sample m "Phosphorus" w)
    as ([x4|e4] & E4 & H4); rewrite E4; [| by exists e4].
  destruct (mapped_field_outcome env sample m "Potassium" w)
    as ([x5|e5] & E5 & H5); rewrite E5; [| by exists e5].
  destruct (mapped_field_outcome env sample m "pH" w)
    as ([x6|e6] & E6 & H6); rewrite E6; [| by exists e6].
  destruct (mapped_field_outcome env sample m "Humidity" w)
    as ([x7|e7] & E7 & H7); rewrite E7; [| by exists e7].
  unfold field_names in Hf. rewrite !elem_of_cons in Hf.
  destruct_or?; subst;
    try (rewrite (mapped_field_missing _ _ _ _ _ Hmiss) in *; discriminate).
  by apply not_elem_of_nil in Hf.
Qed.

(** X5. A mapping that is not empty and lacks one of the seven fields
    loses the whole reading: the function shows an error and returns
    [None], whatever the sample holds for the fields that are mapped. *)
Theorem thingspeak_partial_mapping env (com_port : string)
    (baudrate slave_id : Z) (timeout : Q) (function_code : Z)
    (ts_channel ts_key : string) m w
    (response : Response) kvs samples sample created_at f :
  requests_get env (feed_url ts_channel ts_key) = Val response →
  ((400 <=? status_code response) && (status_code response <? 600))%Z = false →
  body response = Some (JObj kvs) →
  assoc "feeds" kvs = Some (JArr samples) →
  last samples = Some (JObj sample) →
  assoc "created_at" sample = Some created_at →
  m ≠ ∅ → f ∈ field_names → m !! f = None →
  let run := get_sensor_data env "ThingSpeak Cloud" com_port baudrate
               slave_id timeout function_code ts_channel ts_key (Some m) w in
  run.1 = Val None ∧
  ∃ e, last (trace run.2) = Some (StError "ThingSpeak Error" e).
Proof.
  intros Hget Hstatus Hbody Hfeeds Hlast Hcreated Hne Hf Hmiss run.
  assert (Hrun : ∃ e w1,
            run = (Val None,
                   {| rng_calls := rng_calls w1;
                      serial_is_open := serial_is_open w1;
                      trace := trace w1 ++ [StError "ThingSpeak Error" e] |})).
  { subst run.
    change (get_sensor_data env "ThingSpeak Cloud" com_port baudrate slave_id
              timeout function_code ts_channel ts_key (Some m))
      with (thingspeak_cloud env ts_channel ts_key (Some m) data0).
    unfold thingspeak_cloud, try_except.
    rewrite (thingspeak_try_latest _ _ _ _ _ _ _ _ _ _ _
               Hget Hstatus Hbody Hfeeds Hlast Hcreated).
    match goal with
    | |- context [Py.bind (apply_mapping env (JObj sample) (Some m) data0) _ ?w1] =>
        destruct (apply_mapping_missing env m sample data0 w1 f Hne Hf Hmiss)
          as (e & Happ & He);
        unfold bind at 1; rewrite Happ; exists e, w1
    end.
    unfold thingspeak_except. by rewrite He. }
  destruct Hrun as (e & w1 & ->). split; [done |].
  exists e. cbn [snd trace]. by rewrite last_snoc.
Qed.

Lemma thingspeak_partial_mapping_witness :
  let m := delete "Humidity" Examples.default_mapping in
  let run := get_sensor_data
               (Examples.cloud (JArr [JObj Examples.full_sample]))
               "ThingSpeak Cloud" "COM3" 9600 1 1 3 "3187265" "KEY" (Some m)
               Examples.fresh in
  run.1 = Val None ∧
  ∃ e, last (trace run.2) = Some (StError "ThingSpeak Error" e).
Proof.
  intros m run.
  apply (thingspeak_partial_mapping
           (Examples.cloud (JArr [JObj Examples.full_sample]))
           "COM3" 9600 1 1 3 "3187265" "KEY" m Examples.fresh
           _ _ _ Examples.full_sample _ "Humidity"
           eq_refl eq_refl eq_refl eq_refl eq_refl eq_refl).
  - intros Hm. apply (f_equal (λ x, x !! "pH")) in Hm. by vm_compute in Hm.
  - in_list.
  - by vm_compute.
Defined.
End CloudFacts.

(** ** Live Sensor Mode: the paths through the reads *)

Section LivePathFacts.
Import Py Sensor.
Implicit Types (env : Env) (w : World) (evs : list event).

(** The world [w] after the events [evs], with the port open or not. *)
Local Abbreviation after w open evs :=
  {| rng_calls := rng_calls w; serial_is_open := open;
     trace := trace w ++ evs |}.

Lemma lift_frame_run {A} (m : M World A) (i : option Instrument) w :
  lift m (i, w) = ((m w).1, (i, (m w).2)).
Proof. unfold lift. by destruct (m w). Qed.

Lemma log_after e w open evs :
  log e (after w open evs) = (Val tt, after w open (evs ++ [e])).
Proof. unfold log, modify. simpl. by rewrite app_assoc. Qed.

Lemma new_instrument_after env (com_port : string) (slave_id : Z) w open evs :
  Instrument_init env com_port slave_id = None →
  new_instrument env com_port slave_id (after w open evs)
  = (Val {| port := com_port; address := slave_id |},
     after w true
       (evs ++ [OpenInstrument {| port := com_port; address := slave_id |}])).
Proof.
  intros Hinit. unfold new_instrument. rewrite Hinit.
  unfold bind, log, set_serial, modify, ret. simpl. by rewrite app_assoc.
Qed.

Lemma new_instrument_raises env (com_port : string) (slave_id : Z) w e :
  Instrument_init env com_port slave_id = Some e →
  new_instrument env com_port slave_id w = (Exc e, w).
Proof. intros Hinit. unfold new_instrument. by rewrite Hinit. Qed.

Lemma assign_attr_after env name v w open evs :
  setattr env name v = None →
  assign_attr env name v (after w open evs)
  = (Val tt, after w open (evs ++ [SetAttr name])).
Proof.
  intros Hset. unfold assign_attr, bind. rewrite log_after, Hset. done.
Qed.

Lemma do_read_register_after env (addr decimals fc : Z) w open evs :
  do_read_register env addr decimals fc (after w open evs)
  = (read_register env addr decimals fc,
     after w open (evs ++ [ReadRegister addr decimals fc])).
Proof. unfold do_read_register, bind. by rewrite log_after. Qed.

(** Lines 116-125 when the driver is there and the port opens. *)
Lemma live_try_configured env (com_port : string) (baudrate slave_id : Z)
    (timeout : Q) w (rest : M Frame (option (gmap string Q))) :
  import_minimalmodbus env = Val tt →
  Instrument_init env com_port slave_id = None →
  (∀ name v, setattr env name v = None) →
  (lift (log (Import "minimalmodbus")) ;;;
   lift (of_res (import_minimalmodbus env)) ;;;
   instrument <- lift (new_instrument env com_port slave_id) ;;
   assign_instrument instrument ;;;
   lift (assign_attr env "serial.baudrate" (AInt baudrate)) ;;;
   lift (assign_attr env "serial.timeout" (AFloat timeout)) ;;;
   lift (assign_attr env "serial.bytesize" (AInt 8)) ;;;
   lift (assign_attr env "serial.parity" (AStr "N")) ;;;
   lift (assign_attr env "serial.stopbits" (AInt 1)) ;;;
   lift (assign_attr env "mode" (AStr "rtu")) ;;;
   lift (assign_attr env "clear_buffers_before_each_transaction" (ABool true)) ;;;
   rest) (None, w)
  = rest (Some {| port := com_port; address := slave_id |},
          after w true
            [Import "minimalmodbus";
             OpenInstrument {| port := com_port; address := slave_id |};
             SetAttr "serial.baudrate"; SetAttr "serial.timeout";
             SetAttr "serial.bytesize"; SetAttr "serial.parity";
             SetAttr "serial.stopbits"; SetAttr "mode";
             SetAttr "clear_buffers_before_each_transaction"]).
Proof.
  intros Himp Hinit Hset.
  unfold bind at 1. rewrite lift_frame_run.
  change (log (Import "minimalmodbus") w)
    with (Val tt, after w (serial_is_open w) [Import "minimalmodbus"]).
  cbn [fst snd].
  unfold bind at 1. rewrite lift_frame_run, Himp. cbn [fst snd of_res].
  unfold bind at 1. rewrite lift_frame_run, new_instrument_after by done.
  cbn [fst snd app].
  unfold bind at 1. unfold assign_instrument at 1, modify at 1. cbn [fst snd].
  do 7 (unfold bind at 1; rewrite lift_frame_run, assign_attr_after by done;
        cbn [fst snd app]).
  done.
Qed.

(** X6. When the driver is there, the port opens, the assignments and
    the seven reads succeed, the function returns the dict of the seven
    values: registers 0 to 6 go to Temperature, Moisture, Nitrogen,
    Phosphorus, Potassium, pH, Humidity, read in this order with the
    function code that was passed; the port is then closed. *)
Theorem live_all_reads_succeed env (com_port : string)
    (baudrate slave_id : Z) (timeout : Q) (function_code : Z)
    (ts_channel ts_key : string) (mapping : option (gmap string string)) w
    (t m n p k ph h : Q) :
  import_minimalmodbus env = Val tt →
  Instrument_init env com_port slave_id = None →
  (∀ name v, setattr env name v = None) →
  read_register env 0 1 function_code = Val t →
  read_register env 1 1 function_code = Val m →
  read_register env 2 0 function_code = Val n →
  read_register env 3 0 function_code = Val p →
  read_register env 4 0 function_code = Val k →
  read_register env 5 1 function_code = Val ph →
  read_register env 6 1 function_code = Val h →
  get_sensor_data env "Live Sensor Mode" com_port baudrate slave_id timeout
    function_code ts_channel ts_key mapping w
  = (Val (Some (<["Humidity" := h]> (<["pH" := ph]> (<["Potassium" := k]>
               (<["Phosphorus" := p]> (<["Nitrogen" := n]>
               (<["Moisture" := m]> (<["Temperature" := t]> data0)))))))),
     {| rng_calls := rng_calls w;
        serial_is_open := false;
        trace := trace w ++
          [Import "minimalmodbus";
           OpenInstrument {| port := com_port; address := slave_id |};
           SetAttr "serial.baudrate"; SetAttr "serial.timeout";
           SetAttr "serial.bytesize"; SetAttr "serial.parity";
           SetAttr "serial.stopbits"; SetAttr "mode";
           SetAttr "clear_buffers_before_each_transaction";
           ReadRegister 0 1 function_code; ReadRegister 1 1 function_code;
           ReadRegister 2 0 function_code; ReadRegister 3 0 function_code;
           ReadRegister 4 0 function_code; ReadRegister 5 1 function_code;
           ReadRegister 6 1 function_code; SerialClose] |}).
Proof.
  intros Himp Hinit Hset H0 H1 H2 H3 H4 H5 H6.
  change (get_sensor_data env "Live Sensor Mode" com_port baudrate slave_id
            timeout function_code ts_channel ts_key mapping)
    with (live_sensor_mode env com_port baudrate slave_id timeout
            function_code data0).
  unfold live_sensor_mode, with_locals, try_finally, try_except, live_try.
  rewrite (live_try_configured env com_port baudrate slave_id timeout w _
             Himp Hinit Hset).
  unfold bind at 1.
  rewrite lift_frame_run, do_read_register_after, H0. cbn [fst snd app].
  unfold bind at 1.
  rewrite lift_frame_run, do_read_register_after, H1. cbn [fst snd app].
  unfold bind at 1.
  rewrite lift_frame_run, do_read_register_after, H2. cbn [fst snd app].
  unfold bind at 1.
  rewrite lift_frame_run, do_read_register_after, H3. cbn [fst snd app].
  unfold bind at 1.
  rewrite lift_frame_run, do_read_register_after, H4. cbn [fst snd app].
  unfold bind at 1.
  rewrite lift_frame_run, do_read_register_after, H5. cbn [fst snd app].
  unfold bind at 1.
  rewrite lift_frame_run, do_read_register_after, H6. cbn [fst snd app].
  unfold ret at 1. unfold live_finally, bind, get. cbn [fst snd].
  rewrite lift_frame_run, log_after. cbn [fst snd app set_serial modify].
  reflexivity.
Qed.

Lemma live_all_reads_succeed_witness :
  (get_sensor_data Examples.steady_probe "Live Sensor Mode" "COM3" 9600 1 1 4
     "" "" None Examples.fresh).1
  = Val (Some (<["Humidity" := 6%Q]> (<["pH" := 5%Q]> (<["Potassium" := 4%Q]>
              (<["Phosphorus" := 3%Q]> (<["Nitrogen" := 2%Q]>
              (<["Moisture" := 1%Q]> (<["Temperature" := 0%Q]> data0)))))))).
Proof.
  exact (f_equal fst
           (live_all_reads_succeed Examples.steady_probe "COM3" 9600 1 1 4
              "" "" None Examples.fresh 0 1 2 3 4 5 6
              eq_refl eq_refl (λ _ _, eq_refl)
              eq_refl eq_refl eq_refl eq_refl eq_refl eq_refl eq_refl)).
Defined.

(** One register read of the body, with the answer of the probe known. *)
Ltac live_read_step :=
  unfold Py.bind at 1;
  rewrite lift_frame_run, do_read_register_after;
  match goal with
  | H : Sensor.read_register _ _ _ _ = _ |- _ => rewrite H
  end;
  cbn [fst snd app].

(** The events of a trace that is written out. *)
Ltac in_trace H :=
  rewrite ?elem_of_cons in H; destruct_or?; simplify_eq; try lia;
  try (by apply not_elem_of_nil in H).

(** X7. The registers are read in the order of their addresses and the
    first read that raises is the last: the registers after it are not
    asked, the error is shown, the function returns [None] and the port
    is closed. *)
Theorem live_read_failure_stops env (com_port : string)
    (baudrate slave_id : Z) (timeout : Q) (function_code : Z)
    (ts_channel ts_key : string) (mapping : option (gmap string string)) w
    (k : Z) (e : exn) :
  import_minimalmodbus env = Val tt →
  Instrument_init env com_port slave_id = None →
  (∀ name v, setattr env name v = None) →
  (0 <= k <= 6)%Z →
  (∀ a, (0 <= a < k)%Z →
        ∃ v, read_register env a (decimals_asked a) function_code = Val v) →
  read_register env k (decimals_asked k) function_code = Exc e →
  is_Exception e = true →
  let run := get_sensor_data env "Live Sensor Mode" com_port baudrate
               slave_id timeout function_code ts_channel ts_key mapping w in
  run.1 = Val None ∧ serial_is_open run.2 = false ∧
  ∃ evs, trace run.2 = trace w ++ evs ∧
    (∀ a d f, ReadRegister a d f ∈ evs → (0 <= a <= k)%Z) ∧
    (∃ text, StError text e ∈ evs) ∧
    last evs = Some SerialClose.
Proof.
  intros Himp Hinit Hset Hk Hok Hfail He run.
  assert (Hrun : ∃ text evs,
            run = (Val None, after w false evs) ∧
            (∀ a d f, ReadRegister a d f ∈ evs → (0 <= a <= k)%Z) ∧
            StError text e ∈ evs ∧ last evs = Some SerialClose).
  { exists (if is_ImportError e
            then "'minimalmodbus' library not found. Please pip install it."
            else "Sensor Connection Error").
    subst run.
    change (get_sensor_data env "Live Sensor Mode" com_port baudrate slave_id
              timeout function_code ts_channel ts_key mapping)
      with (live_sensor_mode env com_port baudrate slave_id timeout
              function_code data0).
    unfold live_sensor_mode, with_locals, try_finally, try_except, live_try.
    rewrite (live_try_configured env com_port baudrate slave_id timeout w _
               Himp Hinit Hset).
    assert (Hcases : (k = 0 ∨ k = 1 ∨ k = 2 ∨ k = 3 ∨ k = 4 ∨ k = 5 ∨ k = 6)%Z)
      by lia.
    destruct_or!; subst k;
      try (destruct (Hok 0%Z ltac:(lia)) as [v0 H0]; unfold decimals_asked in H0; simpl in H0);
      try (destruct (Hok 1%Z ltac:(lia)) as [v1 H1]; unfold decimals_asked in H1; simpl in H1);
      try (destruct (Hok 2%Z ltac:(lia)) as [v2 H2]; unfold decimals_asked in H2; simpl in H2);
      try (destruct (Hok 3%Z ltac:(lia)) as [v3 H3]; unfold decimals_asked in H3; simpl in H3);
      try (destruct (Hok 4%Z ltac:(lia)) as [v4 H4]; unfold decimals_asked in H4; simpl in H4);
      try (destruct (Hok 5%Z ltac:(lia)) as [v5 H5]; unfold decimals_asked in H5; simpl in H5);
      clear Hok;
      unfold decimals_asked in Hfail; simpl in Hfail;
      repeat live_read_step;
      unfold live_except; destruct (is_ImportError e); rewrite ?He;
      unfold bind at 1; rewrite lift_frame_run, log_after;
      cbn [fst snd app ret];
      unfold live_finally, bind, get; cbn [fst snd];
      rewrite lift_frame_run, log_after; cbn [fst snd app set_serial modify];
      (eexists; split; [reflexivity |]; split_and!;
         [ intros a d f Hin; in_trace Hin
         | in_list
         | reflexivity ]). }
  destruct Hrun as (text & evs & -> & Hreads & Herr & Hlast).
  split; [done |]. split; [done |].
  exists evs. split_and!; [done | done | by exists text | done].
Qed.

Lemma live_read_failure_stops_witness :
  let run := get_sensor_data Examples.flaky_probe "Live Sensor Mode" "COM3"
               9600 1 1 3 "" "" None Examples.fresh in
  run.1 = Val None ∧ serial_is_open run.2 = false ∧
  ∃ evs, trace run.2 = trace Examples.fresh ++ evs ∧
    (∀ a d f, ReadRegister a d f ∈ evs → (0 <= a <= 2)%Z) ∧
    (∃ text, StError text ModbusException ∈ evs) ∧
    last evs = Some SerialClose.
Proof.
  apply (live_read_failure_stops Examples.flaky_probe "COM3" 9600 1 1 3 "" ""
           None Examples.fresh 2 ModbusException);
    try reflexivity; try lia.
  intros a Ha. exists (256 # 10)%Q. simpl.
  destruct (Z.ltb_spec a 2); [done | lia].
Defined.

(** An interrupt during the fourth read is not caught; the port is
    closed before it leaves the function. *)
Example live_interrupt_propagates :
  let run := get_sensor_data Examples.interrupted_probe "Live Sensor Mode"
               "COM3" 9600 1 1 3 "" "" None Examples.fresh in
  run.1 = Exc KeyboardInterrupt ∧ serial_is_open run.2 = false ∧
  last (trace run.2) = Some SerialClose.
Proof. repeat split; reflexivity. Qed.

(** X8. When the import of the driver or the constructor of the
    instrument raises, nothing else is tried: no attribute is set, no
    register is read, no port is closed. The function shows one error
    and returns [None]; the text blames a missing library exactly when
    the exception is an [ImportError]. *)
Theorem live_fails_before_instrument env (com_port : string)
    (baudrate slave_id : Z) (timeout : Q) (function_code : Z)
    (ts_channel ts_key : string) (mapping : option (gmap string string)) w
    (e : exn) :
  import_minimalmodbus env = Exc e ∨
  (import_minimalmodbus env = Val tt ∧
   Instrument_init env com_port slave_id = Some e) →
  is_Exception e = true →
  get_sensor_data env "Live Sensor Mode" com_port baudrate slave_id timeout
    function_code ts_channel ts_key mapping w
  = (Val None,
     after w (serial_is_open w)
       [Import "minimalmodbus";
        StError (if is_ImportError e
                 then "'minimalmodbus' library not found. Please pip install it."
                 else "Sensor Connection Error") e]).
Proof.
  intros Hfail He.
  change (get_sensor_data env "Live Sensor Mode" com_port baudrate slave_id
            timeout function_code ts_channel ts_key mapping)
    with (live_sensor_mode env com_port baudrate slave_id timeout
            function_code data0).
  unfold live_sensor_mode, with_locals, try_finally, try_except, live_try.
  unfold bind at 1. rewrite lift_frame_run.
  change (log (Import "minimalmodbus") w)
    with (Val tt, after w (serial_is_open w) [Import "minimalmodbus"]).
  cbn [fst snd].
  unfold bind at 1. rewrite lift_frame_run.
  destruct Hfail as [-> | [-> Hinit]]; cbn [fst snd of_res].
  - unfold live_except. destruct (is_ImportError e); rewrite ?He;
      unfold bind at 1; rewrite lift_frame_run, log_after;
      cbn [fst snd app ret]; reflexivity.
  - unfold bind at 1.
    rewrite lift_frame_run, (new_instrument_raises _ _ _ _ e) by done.
    cbn [fst snd].
    unfold live_except. destruct (is_ImportError e); rewrite ?He;
      unfold bind at 1; rewrite lift_frame_run, log_after;
      cbn [fst snd app ret]; reflexivity.
Qed.

Lemma live_fails_before_instrument_witness :
  get_sensor_data Examples.offline "Live Sensor Mode" "COM3" 9600 1 1 3
    "" "" None Examples.fresh
  = (Val None,
     {| rng_calls := 0; serial_is_open := false;
        trace := [Import "minimalmodbus";
                  StError
                    "'minimalmodbus' library not found. Please pip install it."
                    ImportError] |}).
Proof.
  exact (live_fails_before_instrument Examples.offline "COM3" 9600 1 1 3
           "" "" None Examples.fresh ImportError
           (or_introl eq_refl) eq_refl).
Defined.
End LivePathFacts.

(** ** The cycle as a whole *)

Section CycleFacts.
Import Py Sensor Consensus Dashboard.
Implicit Types (env : Env) (h : History) (w : World) (cfg : Config).

(** The call of line 246. *)
Local Abbreviation acquire env cfg :=
  (get_sensor_data env (mode cfg) (com_port cfg) (baudrate cfg)
     (slave_id cfg) (timeout cfg) (function_code cfg) (ts_channel cfg)
     (ts_key cfg) (Some (ts_mapping cfg))).

(** Line 248 without a reading or without the models. *)
Lemma cycle_skips env
    (resources : option (Resources string)) cfg h w :
  resources = None ∨ (acquire env cfg w).1 = Val None →
  run_dashboard_cycle env resources cfg (h, w)
  = (match (acquire env cfg w).1 with Val _ => Val tt | Exc e => Exc e end,
     (h, (acquire env cfg w).2)).
Proof.
  intros Hnone. unfold run_dashboard_cycle, bind. rewrite lift_run.
  destruct (acquire env cfg w) as [[[vals|]|e] w1]; cbn [fst snd] in *;
    [| done | done].
  destruct Hnone as [-> | [=]]. done.
Qed.

(** X9. Without a reading or without the models the cycle shows
    nothing and keeps the history: all that happens is the acquisition
    itself. In particular, when the models did not load, a reading that
    was taken is not displayed. *)
Theorem cycle_without_reading_or_models env
    (resources : option (Resources string)) cfg h w :
  resources = None ∨ (acquire env cfg w).1 = Val None →
  run_dashboard_cycle env resources cfg (h, w)
  = (match (acquire env cfg w).1 with Val _ => Val tt | Exc e => Exc e end,
     (h, (acquire env cfg w).2)).
Proof. apply cycle_skips. Qed.

Lemma cycle_without_reading_or_models_witness :
  run_dashboard_cycle Examples.steady_probe None
    {| mode := "Live Sensor Mode"; com_port := "COM3"; baudrate := 9600;
       slave_id := 1; timeout := 1; function_code := 3;
       ts_channel := ""; ts_key := ""; ts_mapping := ∅ |}
    (history0, Examples.fresh)
  = (Val tt,
     (history0,
      (get_sensor_data Examples.steady_probe "Live Sensor Mode" "COM3" 9600 1
         1 3 "" "" (Some ∅) Examples.fresh).2)).
Proof.
  exact (cycle_without_reading_or_models Examples.steady_probe None
           {| mode := "Live Sensor Mode"; com_port := "COM3";
              baudrate := 9600; slave_id := 1; timeout := 1;
              function_code := 3; ts_channel := ""; ts_key := "";
              ts_mapping := ∅ |}
           history0 Examples.fresh (or_introl eq_refl)).
Defined.

Lemma Reading_nonempty (vals : gmap string Q) :
  Reading vals → sensor_vals_truthy (Some vals) = true.
Proof.
  intros Hr. unfold sensor_vals_truthy.
  rewrite bool_decide_eq_false_2; [done |]. intros ->.
  destruct (Reading_lookup ∅ "pH" Hr) as [? Hl]; [in_list |].
  by rewrite lookup_empty in Hl.
Qed.

(** Lines 248-340 with a reading and the models. *)
Lemma cycle_appends env (resources : Resources string) cfg h w
    (vals : gmap string Q) :
  (acquire env cfg w).1 = Val (Some vals) →
  let run := run_dashboard_cycle env (Some resources) cfg (h, w) in
  let h' := run.2.1 in
  run.1 = Val tt ∧
  ∃ n p ph,
    vals !! "Nitrogen" = Some n ∧ vals !! "Phosphorus" = Some p ∧
    vals !! "pH" = Some ph ∧
    if decide (length (htime h) < 30)%nat then
      hN h' = hN h ++ [n] ∧ hP h' = hP h ++ [p] ∧
      hpH h' = hpH h ++ [ph] ∧ htime h' = htime h ++ [strftime env]
    else
      hN h' = tail (hN h ++ [n]) ∧ hP h' = tail (hP h ++ [p]) ∧
      hpH h' = tail (hpH h ++ [ph]) ∧
      htime h' = tail (htime h ++ [strftime env]).
Proof.
  intros Hacq run h'. subst h' run.
  pose proof (get_sensor_data_Reading _ _ _ _ _ _ _ _ _ _ _ _ Hacq)
    as Hr.
  assert (Hk : ∀ k, k ∈ field_names → is_Some (vals !! k))
    by (intros k; by apply Reading_lookup).
  unfold run_dashboard_cycle, bind. rewrite lift_run.
  destruct (acquire env cfg w) as [r w1]. cbn [fst snd] in *. subst r.
  rewrite (Reading_nonempty vals Hr).
  destruct (show_metrics_ok vals h w1 Hk) as [w2 ->].
  destruct (input_data_run (S := State) vals (h, w2) Hk) as [row ->].
  destruct (classify_consensus_total resources (scaler resources row))
    as [c ->].
  destruct (show_verdict_run (classify resources (scaler resources row)) c
              h w2) as [w3 ->].
  destruct (update_history_run env vals h w3 Hk)
    as (n & p & ph & h' & Hn & Hp & Hph & -> & Hh').
  destruct (plot_run h' w3) as [w4 ->].
  split; [done |]. by exists n, p, ph.
Qed.

(** X10. With the models loaded, a cycle whose acquisition returns a
    dict, in whatever mode, ends without an exception and puts exactly
    the Nitrogen, the Phosphorus and the pH of that dict and the time of
    the clock at the end of the four lists, dropping the oldest entry of
    each when there were 30. *)
Theorem cycle_appends_reading env (resources : Resources string) cfg h w
    (vals : gmap string Q) :
  (acquire env cfg w).1 = Val (Some vals) →
  let run := run_dashboard_cycle env (Some resources) cfg (h, w) in
  let h' := run.2.1 in
  run.1 = Val tt ∧
  ∃ n p ph,
    vals !! "Nitrogen" = Some n ∧ vals !! "Phosphorus" = Some p ∧
    vals !! "pH" = Some ph ∧
    if decide (length (htime h) < 30)%nat then
      hN h' = hN h ++ [n] ∧ hP h' = hP h ++ [p] ∧
      hpH h' = hpH h ++ [ph] ∧ htime h' = htime h ++ [strftime env]
    else
      hN h' = tail (hN h ++ [n]) ∧ hP h' = tail (hP h ++ [p]) ∧
      hpH h' = tail (hpH h ++ [ph]) ∧
      htime h' = tail (htime h ++ [strftime env]).
Proof. apply cycle_appends. Qed.

Lemma cycle_appends_reading_witness :
  let cfg := {| mode := "Live Sensor Mode"; com_port := "COM3";
                baudrate := 9600; slave_id := 1; timeout := 1;
                function_code := 3; ts_channel := ""; ts_key := "";
                ts_mapping := ∅ |} in
  let run := run_dashboard_cycle Examples.steady_probe
               (Some Examples.two_healthy) cfg (history0, Examples.fresh) in
  run.1 = Val tt ∧
  hN run.2.1 = [2%Q] ∧ hP run.2.1 = [3%Q] ∧ hpH run.2.1 = [5%Q] ∧
  htime run.2.1 = ["12:00:00"].
Proof.
  intros cfg run.
  destruct (cycle_appends_reading Examples.steady_probe Examples.two_healthy
              cfg history0 Examples.fresh
              (<["Humidity" := 6%Q]> (<["pH" := 5%Q]> (<["Potassium" := 4%Q]>
               (<["Phosphorus" := 3%Q]> (<["Nitrogen" := 2%Q]>
               (<["Moisture" := 1%Q]> (<["Temperature" := 0%Q]> data0)))))))
              eq_refl)
    as (Hval & n & p & ph & Hn & Hp & Hph & HN & HP & HpH & Ht).
  split; [exact Hval |].
  injection Hn as <-. injection Hp as <-. injection Hph as <-.
  split; [exact HN |]. split; [exact HP |]. split; [exact HpH | exact Ht].
Defined.


Lemma tail_drop {A} (l : list A) (k : nat) : tail (drop k l) = drop (S k) l.
Proof.
  revert l. induction k as [|k IH]; intros [|x l]; simpl; done.
Qed.

(** The window of the last 30 entries, one entry later. *)
Lemma window_snoc {A} (l : list A) (x : A) :
  drop (length (l ++ [x]) - 30) (l ++ [x])
  = if decide (length (drop (length l - 30) l) < 30)%nat
    then drop (length l - 30) l ++ [x]
    else tail (drop (length l - 30) l ++ [x]).
Proof.
  rewrite length_app, length_drop. simpl length.
  destruct (decide (length l - (length l - 30) < 30)%nat) as [Hlt|Hge].
  - replace (length l + 1 - 30)%nat with 0%nat by lia.
    replace (length l - 30)%nat with 0%nat by lia. done.
  - replace (length l + 1 - 30)%nat with (S (length l - 30)) by lia.
    rewrite <- tail_drop. f_equal. rewrite drop_app_le by lia. done.
Qed.

(** X12. In a session of cycles in Simulation Mode with the models
    loaded, the time axis of the chart is the window of the last 30
    cycles: the times of the last 30 cycles, oldest first, or of all
    cycles while there are fewer. *)
Theorem session_keeps_last_30 (cs : list Cycle) w :
  (∀ c, c ∈ cs → mode c.2 = "Simulation Mode" ∧ is_Some c.1.2) →
  htime (run_cycles cs (history0, w)).1
  = drop (length cs - 30) ((λ c : Cycle, strftime c.1.1) <$> cs).
Proof.
  induction cs as [|c cs IH] using rev_ind; intros Hcs; [done |].
  unfold run_cycles in *. rewrite fold_left_app. simpl fold_left.
  destruct (fold_left run_cycle cs (history0, w)) as [h w1] eqn:Est.
  simpl in IH.
  assert (Hh : htime h
               = drop (length cs - 30) ((λ c : Cycle, strftime c.1.1) <$> cs)).
  { apply IH. intros c' Hc'. apply Hcs. apply elem_of_app. by left. }
  destruct (Hcs c) as [Hmode [resources Hres]].
  { apply elem_of_app. right. left. }
  destruct c as [[env r] cfg]. simpl in *. subst r.
  destruct (simulation_cycle_appends env resources cfg h w1 Hmode)
    as (n & p & ph & Happ).
  rewrite fmap_app. simpl.
  set (stamps := (λ c : Cycle, strftime c.1.1) <$> cs) in *.
  assert (Hlen : length cs = length stamps)
    by (subst stamps; by rewrite length_fmap).
  rewrite (length_app cs), Hlen.
  change (length [(env, Some resources, cfg)]) with (length [strftime env]).
  rewrite <- (length_app stamps [strftime env]).
  rewrite Hlen in Hh. rewrite window_snoc, <- Hh.
  destruct (decide (length (htime h) < 30)%nat);
    destruct Happ as (_ & _ & _ & Ht); exact Ht.
Qed.

Lemma session_keeps_last_30_witness :
  htime (run_cycles (Examples.simulation_cycle <$> seq 0 31)
           (history0, Examples.fresh)).1
  = drop 1 ((λ c : Cycle, strftime c.1.1)
              <$> (Examples.simulation_cycle <$> seq 0 31)).
Proof.
  assert (Hcs : ∀ c, c ∈ Examples.simulation_cycle <$> seq 0 31 →
                     mode c.2 = "Simulation Mode" ∧ is_Some c.1.2).
  { intros c Hc. apply list_elem_of_fmap in Hc as (i & -> & _).
    split; [reflexivity | by eexists]. }
  exact (session_keeps_last_30 (Examples.simulation_cycle <$> seq 0 31)
           Examples.fresh Hcs).
Defined.
End CycleFacts.

(** ** The models on disk *)

Section LoaderFacts.
Import Py Loader.
Context {Obj : Type}.
Implicit Types (env : Loader.Env Obj) (tr : list (Loader.event)).

Lemma load_run env path tr :
  load env path tr = (joblib_load env path, tr ++ [Load path]).
Proof. reflexivity. Qed.

(** X13. Loading is all or nothing: [load_resources] returns a dict
    exactly when each of the five files loads, and the dict then holds
    the five objects under rf, xgb, svm, scaler and encoder. *)
Theorem load_resources_all_or_nothing env tr (d : gmap string Obj) :
  (load_resources env tr).1 = Val (Some d) ↔
  ∃ rf xgb svm scaler encoder,
    joblib_load env (RF_PATH env) = inl rf ∧
    joblib_load env (XGB_PATH env) = inl xgb ∧
    joblib_load env (SVM_PATH env) = inl svm ∧
    joblib_load env (SCALER_PATH env) = inl scaler ∧
    joblib_load env (ENCODER_PATH env) = inl encoder ∧
    d = <["encoder" := encoder]> (<["scaler" := scaler]>
        (<["svm" := svm]> (<["xgb" := xgb]> (<["rf" := rf]> ∅)))).
Proof.
  unfold load_resources, load_resources_try, lbind, load, lret.
  split.
  - destruct (joblib_load env (RF_PATH env)) as [rf|[|e]];
      [| done | by destruct (is_Exception e)].
    destruct (joblib_load env (XGB_PATH env)) as [xgb|[|e]];
      [| done | by destruct (is_Exception e)].
    destruct (joblib_load env (SVM_PATH env)) as [svm|[|e]];
      [| done | by destruct (is_Exception e)].
    destruct (joblib_load env (SCALER_PATH env)) as [scaler|[|e]];
      [| done | by destruct (is_Exception e)].
    destruct (joblib_load env (ENCODER_PATH env)) as [encoder|[|e]];
      [| done | by destruct (is_Exception e)].
    simpl. intros [= <-]. by exists rf, xgb, svm, scaler, encoder.
  - intros (rf & xgb & svm & scaler & encoder & -> & -> & -> & -> & -> & ->).
    done.
Qed.

(** X14. The files are loaded in the order rf, xgb, svm, scaler,
    encoder, and the first load that raises is the last: the files after
    it are not touched, one error is shown and the result is [None]. *)
Theorem load_resources_stops_at_first_failure env tr
    (before after : list string) (path : string) (r : raised) :
  artifact_paths env = before ++ path :: after →
  (∀ q, q ∈ before → ∃ o, joblib_load env q = inl o) →
  joblib_load env path = inr r →
  r = FileNotFoundError ∨ (∃ e, r = Other e ∧ is_Exception e = true) →
  ∃ text,
    load_resources env tr
    = (Val None, tr ++ (Load <$> before) ++ [Load path; StError text r]).
Proof.
  intros Hpaths Hbefore Hfail Hr. unfold artifact_paths in Hpaths.
  assert (Hend : ∀ tr',
            (match r with
             | FileNotFoundError =>
                 (Val None,
                  tr' ++ [StError
                    "Error loading models. Please ensure 'model_results_smote/' directory exists."
                    FileNotFoundError])
             | Other e =>
                 if is_Exception e
                 then (Val None,
                       tr' ++ [StError "Unexpected error loading models"
                                 (Other e)])
                 else (Exc e, tr')
             end : res (option (gmap string Obj)) * _)
            = (Val None,
               tr' ++ [StError
                         (match r with
                          | FileNotFoundError =>
                              "Error loading models. Please ensure 'model_results_smote/' directory exists."
                          | Other _ => "Unexpected error loading models"
                          end) r])).
  { intros tr'. destruct Hr as [-> | (e & -> & He)]; [done |]. by rewrite He. }
  eexists.
  unfold load_resources, load_resources_try, lbind, load.
  destruct before as [|q1 [|q2 [|q3 [|q4 [|q5 before]]]]];
    cbn [app] in Hpaths; simplify_eq.
  - rewrite Hfail. cbv beta iota. rewrite Hend. by rewrite <- app_assoc.
  - destruct (Hbefore (RF_PATH env)) as [? ->]; [in_list |].
    rewrite Hfail. cbv beta iota. rewrite Hend. by rewrite <- !app_assoc.
  - destruct (Hbefore (RF_PATH env)) as [? ->]; [in_list |].
    destruct (Hbefore (XGB_PATH env)) as [? ->]; [in_list |].
    rewrite Hfail. cbv beta iota. rewrite Hend. by rewrite <- !app_assoc.
  - destruct (Hbefore (RF_PATH env)) as [? ->]; [in_list |].
    destruct (Hbefore (XGB_PATH env)) as [? ->]; [in_list |].
    destruct (Hbefore (SVM_PATH env)) as [? ->]; [in_list |].
    rewrite Hfail. cbv beta iota. rewrite Hend. by rewrite <- !app_assoc.
  - destruct (Hbefore (RF_PATH env)) as [? ->]; [in_list |].
    destruct (Hbefore (XGB_PATH env)) as [? ->]; [in_list |].
    destruct (Hbefore (SVM_PATH env)) as [? ->]; [in_list |].
    destruct (Hbefore (SCALER_PATH env)) as [? ->]; [in_list |].
    rewrite Hfail. cbv beta iota. rewrite Hend. by rewrite <- !app_assoc.
  - by destruct before.
Qed.
End LoaderFacts.

Lemma load_resources_stops_at_first_failure_witness :
  ∃ text,
    Loader.load_resources Examples.no_scaler []
    = (Py.Val None,
       [] ++ (Loader.Load <$> ["model_results/Random Forest_model.pkl";
                               "model_results/XGBoost_model.pkl";
                               "model_results/SVM_model.pkl"])
          ++ [Loader.Load "model_results/scaler.pkl";
              Loader.StError text Loader.FileNotFoundError]).
Proof.
  apply (load_resources_stops_at_first_failure Examples.no_scaler []
           ["model_results/Random Forest_model.pkl";
            "model_results/XGBoost_model.pkl";
            "model_results/SVM_model.pkl"]
           ["model_results/label_encoder.pkl"]
           "model_results/scaler.pkl" Loader.FileNotFoundError).
  - reflexivity.
  - intros q Hq. exists q. rewrite !elem_of_cons in Hq.
    destruct_or?; subst; try reflexivity. by apply not_elem_of_nil in Hq.
  - reflexivity.
  - by left.
Defined.

(** With all five files on disk nothing is reported. *)
Example load_resources_all_files :
  Loader.load_resources Examples.all_files []
  = (Py.Val (Some (<["encoder" := "model_results/label_encoder.pkl"]>
                  (<["scaler" := "model_results/scaler.pkl"]>
                  (<["svm" := "model_results/SVM_model.pkl"]>
                  (<["xgb" := "model_results/XGBoost_model.pkl"]>
                  (<["rf" := "model_results/Random Forest_model.pkl"]>
                     ∅)))))),
     Loader.Load <$> Loader.artifact_paths Examples.all_files).
Proof. reflexivity. Qed.

(** ** The scan for the sensor *)

Section ScannerFacts.
Import Py Scanner.
Implicit Types (env : Scanner.Env) (out : list line).

Lemma print_run l out : print l out = (Val tt, out ++ [l]).
Proof. reflexivity. Qed.

(** A combination that stays silent costs two prints and goes on. *)
Lemma test_combination_silent env (baud slave_id : Z) out :
  no_reply env baud slave_id →
  test_combination env baud slave_id out
  = (Val false, out ++ silent [(baud, slave_id)]).
Proof.
  intros Hno. unfold test_combination, bind, try_except.
  rewrite print_run. destruct (Hno (out ++ [Testing baud slave_id]))
    as (e & -> & He).
  rewrite He. unfold bind. rewrite print_run. simpl.
  by rewrite <- app_assoc.
Qed.

(** A combination that answers is reported and ends the scan. *)
Lemma test_combination_answer env (baud slave_id : Z) (val : Q) out :
  replies env baud slave_id val →
  test_combination env baud slave_id out
  = (Val true, out ++ answer baud slave_id val).
Proof.
  intros Hyes. unfold test_combination, bind, try_except.
  rewrite print_run, Hyes, !print_run. unfold ret, answer.
  by rewrite <- !app_assoc.
Qed.

Lemma silent_app (c1 c2 : list (Z * Z)) :
  silent (c1 ++ c2) = silent c1 ++ silent c2.
Proof. unfold silent. apply bind_app. Qed.

Lemma silent_cons (c : Z * Z) (cs : list (Z * Z)) :
  silent (c :: cs) = silent [c] ++ silent cs.
Proof. exact (silent_app [c] cs). Qed.

Lemma scan_slave_ids_silent env (baud : Z) (slave_ids : list Z) out :
  (∀ i, i ∈ slave_ids → no_reply env baud i) →
  scan_slave_ids env baud slave_ids out
  = (Val false, out ++ silent (pair baud <$> slave_ids)).
Proof.
  revert out. induction slave_ids as [|i ids IH]; intros out Hno.
  - simpl. by rewrite app_nil_r.
  - simpl scan_slave_ids. unfold bind.
    rewrite test_combination_silent by (apply Hno; left).
    rewrite IH by (intros; apply Hno; by right).
    rewrite fmap_cons, (silent_cons (baud, i) (pair baud <$> ids)), app_assoc.
    done.
Qed.

Lemma scan_slave_ids_first env (baud : Z) (before after : list Z)
    (slave_id : Z) (val : Q) out :
  (∀ i, i ∈ before → no_reply env baud i) →
  replies env baud slave_id val →
  scan_slave_ids env baud (before ++ slave_id :: after) out
  = (Val true,
     out ++ silent (pair baud <$> before) ++ answer baud slave_id val).
Proof.
  revert out. induction before as [|i ids IH]; intros out Hno Hyes.
  - simpl scan_slave_ids. unfold bind.
    by rewrite (test_combination_answer env baud slave_id val).
  - simpl scan_slave_ids. unfold bind.
    rewrite test_combination_silent by (apply Hno; left).
    rewrite IH; [| intros; apply Hno; by right | done].
    rewrite fmap_cons, (silent_cons (baud, i) (pair baud <$> ids)).
    by rewrite <- !app_assoc.
Qed.

Lemma scan_baud_rates_silent env (baud_rates slave_ids : list Z) out :
  (∀ b i, b ∈ baud_rates → i ∈ slave_ids → no_reply env b i) →
  scan_baud_rates env baud_rates slave_ids out
  = (Val false, out ++ silent (combinations baud_rates slave_ids)).
Proof.
  revert out. induction baud_rates as [|b bs IH]; intros out Hno.
  - simpl. by rewrite app_nil_r.
  - simpl scan_baud_rates. unfold bind.
    rewrite scan_slave_ids_silent by (intros; apply Hno; [left | done]).
    rewrite IH by (intros; apply Hno; [by right | done]).
    unfold combinations. rewrite bind_cons, silent_app, app_assoc. done.
Qed.

Lemma scan_baud_rates_first env (bauds_before bauds_after : list Z)
    (baud : Z) (ids_before ids_after : list Z) (slave_id : Z) (val : Q) out :
  let slave_ids := ids_before ++ slave_id :: ids_after in
  (∀ b i, b ∈ bauds_before → i ∈ slave_ids → no_reply env b i) →
  (∀ i, i ∈ ids_before → no_reply env baud i) →
  replies env baud slave_id val →
  scan_baud_rates env (bauds_before ++ baud :: bauds_after) slave_ids out
  = (Val true,
     out ++ silent (combinations bauds_before slave_ids
                    ++ (pair baud <$> ids_before))
         ++ answer baud slave_id val).
Proof.
  intros slave_ids. revert out.
  induction bauds_before as [|b bs IH]; intros out Hno Hno' Hyes.
  - simpl scan_baud_rates. unfold bind. subst slave_ids.
    by rewrite (scan_slave_ids_first env baud ids_before ids_after slave_id val).
  - simpl scan_baud_rates. unfold bind.
    rewrite scan_slave_ids_silent by (intros; apply Hno; [left | done]).
    rewrite IH; [| intros; apply Hno; [by right | done] | done | done].
    unfold combinations. rewrite bind_cons, !silent_app, <- !app_assoc. done.
Qed.

(** How a combination answers, read off the three calls of the probe. *)
Lemma probe_replies env (baud slave_id : Z) (val : Q) :
  Instrument_init env PORT_NAME slave_id = None →
  (∀ name v, setattr env name v = None) →
  read_register env baud slave_id = Val val →
  replies env baud slave_id val.
Proof.
  intros Hinit Hset Hread out. unfold probe, assign_attr, bind, of_res.
  by rewrite Hinit, !Hset, Hread.
Qed.

Lemma probe_no_reply env (baud slave_id : Z) (e : exn) :
  is_Exception e = true →
  Instrument_init env PORT_NAME slave_id = Some e ∨
  (Instrument_init env PORT_NAME slave_id = None ∧
   (∀ name v, setattr env name v = None) ∧
   read_register env baud slave_id = Exc e) →
  no_reply env baud slave_id.
Proof.
  intros He [Hinit | (Hinit & Hset & Hread)] out; exists e;
    unfold probe, assign_attr, bind, of_res.
  - by rewrite Hinit.
  - by rewrite Hinit, !Hset, Hread.
Qed.

(** X15. The scan reports the first combination that answers, in the
    order 9600, 4800, 19200 baud and within each the slave addresses 1,
    2, 3: every combination before it is tested once and gets no reply,
    none after it is tested, and the script does not print that the
    sensor was not found. *)
Theorem scan_sensor_reports_first env
    (bauds_before bauds_after : list Z) (baud : Z)
    (ids_before ids_after : list Z) (slave_id : Z) (val : Q) out :
  BAUD_RATES = bauds_before ++ baud :: bauds_after →
  SLAVE_IDS = ids_before ++ slave_id :: ids_after →
  (∀ b i, b ∈ bauds_before → i ∈ SLAVE_IDS → no_reply env b i) →
  (∀ i, i ∈ ids_before → no_reply env baud i) →
  replies env baud slave_id val →
  scan_sensor env out
  = (Val tt,
     out ++ [Scanning PORT_NAME; EnsurePowered]
         ++ silent (combinations bauds_before SLAVE_IDS
                    ++ (pair baud <$> ids_before))
         ++ answer baud slave_id val).
Proof.
  intros Hbauds Hids Hno Hno' Hyes. unfold scan_sensor.
  unfold bind at 1. rewrite print_run.
  unfold bind at 1. rewrite print_run.
  unfold bind at 1. rewrite Hbauds, Hids in *.
  rewrite (scan_baud_rates_first env bauds_before bauds_after baud
             ids_before ids_after slave_id val) by done.
  change (negb true) with false. cbv iota. unfold ret.
  by rewrite <- !app_assoc.
Qed.

Lemma scan_sensor_reports_first_witness :
  scan_sensor Examples.sensor_4800_2 []
  = (Val tt,
     [] ++ [Scanning PORT_NAME; EnsurePowered]
        ++ silent (combinations [9600%Z] SLAVE_IDS ++ (pair 4800%Z <$> [1%Z]))
        ++ answer 4800 2 (256 # 10)).
Proof.
  assert (Hno : ∀ b i, (b =? 4800)%Z && (i =? 2)%Z = false →
                       no_reply Examples.sensor_4800_2 b i).
  { intros b i Hbi. apply (probe_no_reply _ _ _ ModbusException); [done |].
    right. split_and!; [done | done |]. simpl. by rewrite Hbi. }
  apply (scan_sensor_reports_first Examples.sensor_4800_2
           [9600%Z] [19200%Z] 4800 [1%Z] [3%Z] 2 (256 # 10) []).
  - reflexivity.
  - reflexivity.
  - intros b i Hb Hi. apply Hno. apply list_elem_of_singleton in Hb as ->.
    reflexivity.
  - intros i Hi. apply Hno. apply list_elem_of_singleton in Hi as ->.
    reflexivity.
  - by apply probe_replies.
Defined.

(** X16. When no combination answers, each of the nine combinations is
    tested exactly once, in the order of the two loops, and the script
    ends with the lines that the sensor was not found. *)
Theorem scan_sensor_not_found env out :
  (∀ b i, b ∈ BAUD_RATES → i ∈ SLAVE_IDS → no_reply env b i) →
  scan_sensor env out
  = (Val tt,
     out ++ [Scanning PORT_NAME; EnsurePowered]
         ++ silent (combinations BAUD_RATES SLAVE_IDS)
         ++ [NotFound; Troubleshooting; SwapWires; CheckPower; CheckGround]).
Proof.
  intros Hno. unfold scan_sensor.
  unfold bind at 1. rewrite print_run.
  unfold bind at 1. rewrite print_run.
  unfold bind at 1. rewrite scan_baud_rates_silent by done.
  change (negb false) with true. cbv iota.
  do 4 (unfold bind at 1; rewrite print_run). rewrite print_run.
  by rewrite <- !app_assoc.
Qed.

Lemma scan_sensor_not_found_witness :
  scan_sensor Examples.no_port []
  = (Val tt,
     [] ++ [Scanning PORT_NAME; EnsurePowered]
        ++ silent (combinations BAUD_RATES SLAVE_IDS)
        ++ [NotFound; Troubleshooting; SwapWires; CheckPower; CheckGround]).
Proof.
  apply (scan_sensor_not_found Examples.no_port []).
  intros b i _ _. apply (probe_no_reply _ _ _ SerialException); [done |].
  by left.
Defined.

(** The nine combinations, as the two loops visit them. *)
Example combinations_of_the_script :
  combinations BAUD_RATES SLAVE_IDS
  = [(9600, 1); (9600, 2); (9600, 3); (4800, 1); (4800, 2); (4800, 3);
     (19200, 1); (19200, 2); (19200, 3)]%Z.
Proof. reflexivity. Qed.
End ScannerFacts.
